(** * Webstrates asset manager (helpers/AssetManager.js)

    A shallow embedding of the asset record store and of the operations the
    asset manager builds on it: duplicate lookup, version-aware retrieval,
    soft deletion, copy to a prototyped document, restore to a new version,
    bulk deletion and upload admission.

    Conventions of the embedding.
    - An asset document of the [db.assets] collection is a record [Asset];
      a field a document may lack ([_id] under the projection [{ _id: 0 }],
      [_originalId], [deletedAt], and [fileHash] when the uploaded file
      carried none) is an [option].
    - Versions and sizes are JavaScript numbers holding integers: [Z].
    - The collection is the list of its documents in natural (insertion)
      order; [Mongo] gives the driver calls the source uses as functions on
      that list.  Reads and bulk writes are total; of the driver's error
      results only the write failure of a single admission is kept.
    - A callback or promise is the value it is eventually called or settled
      with.
    - The collaborators the source requires from other modules
      (DocumentManager, SearchableAssets, md5-file, fs.unlink) are Section
      variables. *)

From Stdlib Require Import ZArith List String Ascii Bool Lia Permutation.
Import ListNotations.
Open Scope string_scope.
Open Scope list_scope.
Open Scope Z_scope.

(** ** JavaScript values used as conditions *)

Module JS.

(** [if (n)] on a number: 0 is falsy, every other integer is truthy. *)
Definition truthy (n : Z) : bool := negb (n =? 0).

(** [if (x)] on a number that may be [undefined]. *)
Definition truthy_opt (x : option Z) : bool :=
  match x with
  | Some n => truthy n
  | None => false
  end.

(** [a <= b] on numbers that may be [undefined]: a comparison with
    [undefined] is false. *)
Definition le_opt (a b : option Z) : bool :=
  match a, b with
  | Some x, Some y => x <=? y
  | _, _ => false
  end.

(** [a || b] on references that may be [undefined] (objects are truthy). *)
Definition or_else {A : Type} (a b : option A) : option A :=
  match a with
  | Some _ => a
  | None => b
  end.

Inductive Error : Type :=
| TypeError
| Err (message : string).

(** The settled state of a promise. *)
Inductive Promise (A : Type) : Type :=
| Resolved (value : A)
| Rejected (reason : Error).

Arguments Resolved {A} value.
Arguments Rejected {A} reason.

(** What a node-style callback [next] is called with, if it is called. *)
Inductive Callback (A : Type) : Type :=
| NotCalled
| CbErr (err : Error)
| CbOk (result : A).

Arguments NotCalled {A}.
Arguments CbErr {A} err.
Arguments CbOk {A} result.

(** [Promise.all] over promises that each settle as a callback would: it
    rejects when one of them rejects, stays pending when none rejects and
    one never settles, and otherwise resolves with all the values. *)
Fixpoint promiseAll {A : Type} (ps : list (Callback A)) : Callback (list A) :=
  match ps with
  | [] => CbOk []
  | p :: rest =>
      match p, promiseAll rest with
      | CbErr e, _ => CbErr e
      | _, CbErr e => CbErr e
      | NotCalled, _ => NotCalled
      | _, NotCalled => NotCalled
      | CbOk x, CbOk xs => CbOk (x :: xs)
      end
  end.

End JS.

(** ** Asset records *)

Definition ObjectId := nat.

Record Asset : Type := mkAsset {
  _id : option ObjectId;
  _originalId : option ObjectId;
  webstrateId : string;
  v : Z;
  fileName : string;
  originalFileName : string;
  fileSize : Z;
  mimeType : string;
  fileHash : option string;
  deletedAt : option Z
}.

Definition set_id (i : option ObjectId) (a : Asset) : Asset :=
  mkAsset i (_originalId a) (webstrateId a) (v a) (fileName a)
          (originalFileName a) (fileSize a) (mimeType a) (fileHash a)
          (deletedAt a).

Definition set_originalId (o : option ObjectId) (a : Asset) : Asset :=
  mkAsset (_id a) o (webstrateId a) (v a) (fileName a)
          (originalFileName a) (fileSize a) (mimeType a) (fileHash a)
          (deletedAt a).

Definition set_webstrateId (w : string) (a : Asset) : Asset :=
  mkAsset (_id a) (_originalId a) w (v a) (fileName a)
          (originalFileName a) (fileSize a) (mimeType a) (fileHash a)
          (deletedAt a).

Definition set_v (n : Z) (a : Asset) : Asset :=
  mkAsset (_id a) (_originalId a) (webstrateId a) n (fileName a)
          (originalFileName a) (fileSize a) (mimeType a) (fileHash a)
          (deletedAt a).

Definition set_deletedAt (d : option Z) (a : Asset) : Asset :=
  mkAsset (_id a) (_originalId a) (webstrateId a) (v a) (fileName a)
          (originalFileName a) (fileSize a) (mimeType a) (fileHash a) d.

Definition option_eqb {A : Type} (eqb : A -> A -> bool) (x y : option A) : bool :=
  match x, y with
  | Some a, Some b => eqb a b
  | None, None => true
  | _, _ => false
  end.

(** Two documents are the same document when all their fields agree. *)
Definition Asset_eqb (a b : Asset) : bool :=
  option_eqb Nat.eqb (_id a) (_id b)
  && option_eqb Nat.eqb (_originalId a) (_originalId b)
  && (webstrateId a =? webstrateId b)%string
  && (v a =? v b)
  && (fileName a =? fileName b)%string
  && (originalFileName a =? originalFileName b)%string
  && (fileSize a =? fileSize b)
  && (mimeType a =? mimeType b)%string
  && option_eqb String.eqb (fileHash a) (fileHash b)
  && option_eqb Z.eqb (deletedAt a) (deletedAt b).

(** ** The driver calls on a collection *)

Module Mongo.

Section Collection.

Context {Doc : Type}.

(** The field a call sorts on, and identity of documents. *)
Variable sortKey : Doc -> Z.
Variable same : Doc -> Doc -> bool.

(** [find(query).toArray]. *)
Definition find (query : Doc -> bool) (c : list Doc) : list Doc :=
  filter query c.

(** [findOne(query)]: the first match in natural order, else [null]. *)
Definition findOne (query : Doc -> bool) (c : list Doc) : option Doc :=
  List.find query c.

(** Insertion into a list sorted on [sortKey], descending.  The server
    promises no order among documents of equal key; here a document goes
    before the ones with an equal key, so that folding from the right keeps
    equal keys in natural order, which is one of the orders the server may
    give.  What every such order gives is [greatestMatch] below: the sorted
    lookup answers with a greatest match, and that is the only possible
    answer when the matches have distinct keys. *)
Fixpoint insertDesc (d : Doc) (l : list Doc) : list Doc :=
  match l with
  | [] => [d]
  | x :: t => if sortKey x <=? sortKey d then d :: x :: t
              else x :: insertDesc d t
  end.

(** [sort: { key: -1 }]. *)
Definition sortDesc (c : list Doc) : list Doc :=
  fold_right insertDesc [] c.

(** [findOne(query, { sort: { key: -1 } })]. *)
Definition findOneSorted (query : Doc -> bool) (c : list Doc) : option Doc :=
  hd_error (sortDesc (find query c)).

(** Replace the first document that is [target] by [update target]. *)
Fixpoint updateOne (target : Doc) (update : Doc -> Doc) (c : list Doc)
  : list Doc :=
  match c with
  | [] => []
  | x :: t => if same x target then update x :: t
              else x :: updateOne target update t
  end.

(** [findOneAndUpdate(query, update, { sort: { key: -1 } })]: the document
    chosen as by [findOneSorted] is updated in place; the result's [value]
    is that document as it was before the update, [null] when none
    matches. *)
Definition findOneAndUpdate (query : Doc -> bool) (update : Doc -> Doc)
           (c : list Doc) : list Doc * option Doc :=
  match findOneSorted query c with
  | Some d => (updateOne d update c, Some d)
  | None => (c, None)
  end.

(** [deleteMany(query)]. *)
Definition deleteMany (query : Doc -> bool) (c : list Doc) : list Doc :=
  filter (fun d => negb (query d)) c.

End Collection.

(** [distinct(field, query)] for a string field. *)
Definition distinct {Doc : Type} (field : Doc -> string)
           (query : Doc -> bool) (c : list Doc) : list string :=
  nodup string_dec (map field (filter query c)).

End Mongo.

(** The [db.assets] collection with the driver's counter for fresh
    [_id]s. *)
Record Db : Type := mkDb {
  docs : list Asset;
  nextId : ObjectId
}.

(** [insert(doc)]: a document without [_id] is given a fresh one. *)
Definition insertOne (d : Asset) (db : Db) : Db * Asset :=
  let d' := match _id d with
            | Some _ => d
            | None => set_id (Some (nextId db)) d
            end in
  (mkDb (docs db ++ [d']) (S (nextId db)), d').

(** [insertMany(docs)], in order. *)
Definition insertMany (ds : list Asset) (db : Db) : Db :=
  fold_left (fun db d => fst (insertOne d db)) ds db.

(** The error with which the driver refuses an empty batch. *)
Definition noOperations : JS.Error :=
  JS.Err "Invalid Operation, no operations specified".

(** [insertMany(docs, next)]: an empty list of documents is refused and
    [next] receives the driver's error; otherwise the documents are
    inserted and [next] is called without one. *)
Definition insertManyNext (ds : list Asset) (db : Db)
  : Db * JS.Callback unit :=
  match ds with
  | [] => (db, JS.CbErr noOperations)
  | _ :: _ => (insertMany ds db, JS.CbOk tt)
  end.

(** The projection [{ _id: 0 }]. *)
Definition without_id (a : Asset) : Asset := set_id None a.

(** ** Plain objects used as maps

    [var o = {}] keyed by strings: the own properties in insertion order,
    on top of what every object inherits from [Object.prototype]. *)

Module JsObject.

(** The property names [Object.prototype] defines; each holds a function
    (or, for [__proto__], the prototype object), hence a truthy value
    without a numeric [v]. *)
Definition prototypeKeys : list string :=
  [ "constructor"; "__defineGetter__"; "__defineSetter__"; "hasOwnProperty";
    "__lookupGetter__"; "__lookupSetter__"; "isPrototypeOf";
    "propertyIsEnumerable"; "toString"; "valueOf"; "__proto__";
    "toLocaleString" ].

Definition inherited (k : string) : bool :=
  existsb (String.eqb k) prototypeKeys.

(** *** Array-index keys

    A key is an array index when it is the canonical decimal numeral of an
    integer below [2^32 - 1]; [Object.keys] lists those first. *)

Definition digit (c : ascii) : option N :=
  let n := N_of_ascii c in
  if ((48 <=? n) && (n <=? 57))%N then Some (n - 48)%N else None.

Fixpoint parseDigits (s : string) (acc : N) : option N :=
  match s with
  | EmptyString => Some acc
  | String c r =>
      match digit c with
      | Some d => parseDigits r (acc * 10 + d)%N
      | None => None
      end
  end.

Definition arrayIndex (k : string) : option N :=
  match k with
  | EmptyString => None
  | String c r =>
      if (c =? "0")%char && negb (r =? "")%string then None
      else match parseDigits k 0%N with
           | Some n => if (n <? 4294967295)%N then Some n else None
           | None => None
           end
  end.

Definition isIndex (k : string) : bool :=
  match arrayIndex k with
  | Some _ => true
  | None => false
  end.

Definition indexOf (k : string) : N :=
  match arrayIndex k with
  | Some n => n
  | None => 0%N
  end.

Section Properties.

Context {V : Type}.

Definition t : Type := list (string * V).

Definition empty : t := [].

(** The own property [k], if any. *)
Fixpoint getOwn (o : t) (k : string) : option V :=
  match o with
  | [] => None
  | (k', x) :: r => if (k' =? k)%string then Some x else getOwn r k
  end.

(** What reading [o[k]] finds. *)
Inductive Lookup : Type :=
| Own (x : V)
| Inherited
| Undefined.

Definition get (o : t) (k : string) : Lookup :=
  match getOwn o k with
  | Some x => Own x
  | None => if inherited k then Inherited else Undefined
  end.

(** [o[k] = x] for a key that is own or not defined at all: an own
    property keeps its place, a new one goes last. *)
Fixpoint set (o : t) (k : string) (x : V) : t :=
  match o with
  | [] => [(k, x)]
  | (k', y) :: r => if (k' =? k)%string then (k', x) :: r
                    else (k', y) :: set r k x
  end.

Fixpoint insertIndex (e : string * V) (l : t) : t :=
  match l with
  | [] => [e]
  | x :: r => if (indexOf (fst e) <=? indexOf (fst x))%N then e :: x :: r
              else x :: insertIndex e r
  end.

(** The own properties in enumeration order: array indices ascending, then
    the other keys as inserted. *)
Definition ordered (o : t) : t :=
  fold_right insertIndex [] (filter (fun e => isIndex (fst e)) o)
  ++ filter (fun e => negb (isIndex (fst e))) o.

(** [Object.keys(o)]. *)
Definition keys (o : t) : list string := map fst (ordered o).

End Properties.

Arguments t V : clear implicits.
Arguments Lookup V : clear implicits.

End JsObject.

(** ** The version resolver *)

(** [filterNewestAssets(assets)]: one pass that keeps, per
    [originalFileName], the first asset seen unless a later one has a
    strictly larger [v]; then the kept assets in key order.  For a name
    that [Object.prototype] defines, [filteredAssets[name]] is truthy from
    the start and its [v] is [undefined], so that [undefined < asset.v] is
    false and nothing is ever stored under it. *)
Definition keepNewest (filteredAssets : JsObject.t Asset) (asset : Asset)
  : JsObject.t Asset :=
  match JsObject.get filteredAssets (originalFileName asset) with
  | JsObject.Undefined =>
      JsObject.set filteredAssets (originalFileName asset) asset
  | JsObject.Own kept =>
      if v kept <? v asset
      then JsObject.set filteredAssets (originalFileName asset) asset
      else filteredAssets
  | JsObject.Inherited => filteredAssets
  end.

Definition filterNewestAssets (assets : list Asset) : list Asset :=
  let filteredAssets := fold_left keepNewest assets JsObject.empty in
  flat_map (fun key => match JsObject.getOwn filteredAssets key with
                       | Some asset => [asset]
                       | None => []
                       end)
           (JsObject.keys filteredAssets).

(** ** Uploaded files and what the manager answers *)

Module Multer.

(** A file object of [req.files].  [content] stands for the bytes Multer
    wrote at [file.path]; [fileHash] is absent until the upload handler
    adds it. *)
Record File : Type := mkFile {
  filename : string;
  originalname : string;
  mimetype : string;
  size : Z;
  content : list Byte.byte;
  fileHash : option string
}.

Definition set_fileHash (h : option string) (f : File) : File :=
  mkFile (filename f) (originalname f) (mimetype f) (size f) (content f) h.

Definition set_filename (n : string) (f : File) : File :=
  mkFile n (originalname f) (mimetype f) (size f) (content f) (fileHash f).

(** The error the generated upload function reports. *)
Inductive UploadError : Type :=
| LIMIT_FILE_SIZE
| OtherError (e : JS.Error).

End Multer.

Module AssetSummary.

(** The object [addAsset] hands to its callback and announces. *)
Record t : Type := mk {
  v : Z;
  fileName : string;
  fileSize : Z;
  mimeType : string;
  identifier : string;
  fileHash : option string
}.

End AssetSummary.

(** [assetRecords.length === 1 ? assetRecords[0] : assetRecords]. *)
Inductive OneOrMany (A : Type) : Type :=
| One (record : A)
| Many (records : list A).

Arguments One {A} record.
Arguments Many {A} records.

(** [req.body.searchable]. *)
Inductive Searchable : Type :=
| SearchableAbsent
| SearchableString (s : string)
| SearchableArray (names : list string).

Record Request : Type := mkRequest {
  req_webstrateId : string;
  req_files : option (list Multer.File);
  req_searchable : Searchable;
  req_userId : string;
  req_remoteAddress : string
}.

Inductive Response : Type :=
| Status409_MaxFileSize
| Status409_Raw (e : JS.Error)
| Status409_Error (e : JS.Error)
| Status422_ParameterMissing
| Json (body : OneOrMany AssetSummary.t)
| NoResponse.

(** The blobs present under [UPLOAD_DEST], by file name. *)
Definition Fs : Type := list string.

(** The current version of each document, as DocumentManager reports it. *)
Definition Versions : Type := string -> Z.

Record World : Type := mkWorld {
  db : Db;
  fs : Fs;
  versions : Versions
}.

(** [s.endsWith(suffix)]. *)
Definition endsWith (s suffix : string) : bool :=
  let n := String.length s in
  let m := String.length suffix in
  (m <=? n)%nat && (substring (n - m) m s =? suffix)%string.

(** [list.includes(x)] on strings. *)
Definition includes (l : list string) (x : string) : bool :=
  existsb (String.eqb x) l.

(** [fs.existsSync]. *)
Definition existsSync (files : Fs) (fileName : string) : bool :=
  includes files fileName.

(** ** The asset manager *)

Section AssetManager.

(** md5-file: the digest of a file's bytes. *)
Variable md5File : list Byte.byte -> string.

(** [module.exports.UPLOAD_DEST]. *)
Variable UPLOAD_DEST : string.

(** DocumentManager.sendNoOp(webstrateId, 'assetAdded', source): what it
    does to the documents' versions. *)
Variable sendNoOp : string -> string -> Versions -> Versions.

(** DocumentManager.getVersionFromTag(webstrateId, tag): what its callback
    is called with. *)
Variable getVersionFromTag : string -> option string -> JS.Callback (option Z).

(** SearchableAssets.makeSearchable(assetId, path) and
    SearchableAssets.deleteSearchable(assetId): whether the promise each
    returns resolves. *)
Variable makeSearchable : option ObjectId -> string -> bool.
Variable deleteSearchable : option ObjectId -> bool.

(** Whether [fs.unlink] of a file name reports an error and leaves the file
    (a file that does not exist is an error in any case). *)
Variable unlinkFails : string -> bool.

(** The error, if any, with which [db.assets.insert] refuses a document
    on admission. *)
Variable insertError : Asset -> option JS.Error.

Definition unlink (files : Fs) (fileName : string) : Fs :=
  if unlinkFails fileName then files
  else filter (fun f => negb (f =? fileName)%string) files.

(** [findDuplicateAsset(asset)]:
    [db.assets.findOne({ fileSize: asset.size, fileHash: asset.fileHash })]. *)
Definition findDuplicateAsset (assets : list Asset) (asset : Multer.File)
  : option Asset :=
  Mongo.findOne (fun a => (fileSize a =? Multer.size asset)
                          && option_eqb String.eqb (fileHash a)
                                        (Multer.fileHash asset))
                assets.

(** The query [{ webstrateId, originalFileName: assetName }]. *)
Definition byName (wid assetName : string) (a : Asset) : bool :=
  (webstrateId a =? wid)%string && (originalFileName a =? assetName)%string.

(** The query [{ webstrateId, v: { $lte: version } }]. *)
Definition byVersion (wid : string) (version : option Z) (a : Asset) : bool :=
  (webstrateId a =? wid)%string && JS.le_opt (Some (v a)) version.

(** The query of [getAsset]: by name, and
    [if (version) query.v = { $lte: +version }]. *)
Definition getAssetQuery (wid assetName : string) (version : option Z)
           (a : Asset) : bool :=
  byName wid assetName a
  && (if JS.truthy_opt version then JS.le_opt (Some (v a)) version else true).

(** [getAsset({ webstrateId, assetName, version })].  With no matching
    document [findOne] gives [null] and reading [asset.deletedAt] throws, so
    the promise of this async function is rejected. *)
Definition getAsset (assets : list Asset) (wid assetName : string)
           (version : option Z) : JS.Promise (option Asset) :=
  let query := getAssetQuery wid assetName version in
  match Mongo.findOneSorted v query assets with
  | None => JS.Rejected JS.TypeError
  | Some asset =>
      if JS.truthy_opt (deletedAt asset)
         && ((JS.truthy_opt version && JS.le_opt (deletedAt asset) version)
             || negb (JS.truthy_opt version))
      then JS.Resolved None
      else JS.Resolved (Some asset)
  end.

(** [markAssetAsDeleted(webstrateId, assetName)]; the version is
    DocumentManager.getDocumentVersion's answer. *)
Definition markAssetAsDeleted (vs : Versions) (assets : list Asset)
           (wid assetName : string) : list Asset * JS.Promise Asset :=
  let version := vs wid in
  let query := byName wid assetName in
  match Mongo.findOneAndUpdate v Asset_eqb query
                               (set_deletedAt (Some version)) assets with
  | (assets', Some value) => (assets', JS.Resolved value)
  | (assets', None) => (assets', JS.Rejected (JS.Err "Update failed"))
  end.

(** [deleteAssetFromFileSystem(fileName)]. *)
Definition deleteAssetFromFileSystem (files : Fs) (fileName : string) : Fs :=
  if (fileName =? "")%string || negb (existsSync files fileName) then files
  else unlink files fileName.

(** The clone [copyAssets] inserts for a resolved asset. *)
Definition copyOf (toWebstrateId : string) (asset : Asset) : Asset :=
  set_id None
    (set_originalId (JS.or_else (_originalId asset) (_id asset))
       (set_webstrateId toWebstrateId (set_v 0 asset))).

(** [copyAssets({ fromWebstrateId, toWebstrateId, version }, next)]. *)
Definition copyAssets (d : Db) (fromWebstrateId toWebstrateId : string)
           (version : Z) : Db * JS.Callback unit :=
  let query := byVersion fromWebstrateId (Some version) in
  let assets := filterNewestAssets (Mongo.find query (docs d)) in
  if (List.length assets =? 0)%nat then (d, JS.CbOk tt)
  else insertManyNext (map (copyOf toWebstrateId) assets) d.

(** [restoreAssets({ webstrateId, version, tag, newVersion }, next)].  A
    missing (falsy) version is looked up from the tag and the function
    calls itself again; [fuel] bounds these calls, [None] is fuel spent.
    The length is tested on what [find] gave, before the resolver runs:
    when the resolver keeps none of the documents found, [insertMany] is
    called with an empty list. *)
Fixpoint restoreAssets (fuel : nat) (d : Db) (wid : string)
         (version : option Z) (tag : option string) (newVersion : Z)
  : option (Db * JS.Callback unit) :=
  match fuel with
  | O => None
  | S fuel' =>
      if negb (JS.truthy_opt version) then
        match getVersionFromTag wid tag with
        | JS.CbErr err => Some (d, JS.CbErr err)
        | JS.NotCalled => Some (d, JS.NotCalled)
        | JS.CbOk version' =>
            restoreAssets fuel' d wid version' tag newVersion
        end
      else
        let query := byVersion wid version in
        let assets := map without_id (Mongo.find query (docs d)) in
        if (List.length assets =? 0)%nat then Some (d, JS.CbOk tt)
        else
          let assets := filterNewestAssets assets in
          Some (insertManyNext (map (set_v newVersion) assets) d)
  end.

(** [deleteAssets(webstrateId, next)].  Every unlink is started before any
    promise is awaited; the documents are deleted once all promises have
    resolved, and an unlink's promise resolves whatever the unlink
    reported. *)
Definition deleteAssets (d : Db) (files : Fs) (wid : string)
  : Db * Fs * JS.Callback unit :=
  let assets :=
    map fileName
        (Mongo.find (fun a => (webstrateId a =? wid)%string) (docs d)) in
  let assetsBeingUsed :=
    Mongo.distinct fileName
      (fun a => includes assets (fileName a)
                && negb (webstrateId a =? wid)%string)
      (docs d) in
  let assetsToBeDeleted :=
    filter (fun asset => negb (includes assetsBeingUsed asset)) assets in
  let files' := fold_left unlink assetsToBeDeleted files in
  if forallb (fun _ => deleteSearchable None) assetsToBeDeleted
  then (mkDb (Mongo.deleteMany (fun a => (webstrateId a =? wid)%string)
                               (docs d))
             (nextId d),
        files', JS.CbOk tt)
  else (d, files', JS.NotCalled).

(** [addAsset(webstrateId, asset, searchable, source, next)]. *)
Definition addAsset (w : World) (wid : string) (asset : Multer.File)
           (searchable : bool) (source : string)
  : World * JS.Callback AssetSummary.t :=
  let vs := sendNoOp wid source (versions w) in
  let version := vs wid in
  let doc := mkAsset None None wid version (Multer.filename asset)
                     (Multer.originalname asset) (Multer.size asset)
                     (Multer.mimetype asset) (Multer.fileHash asset) None in
  match insertError doc with
  | Some err => (mkWorld (db w) (fs w) vs, JS.CbErr err)
  | None =>
      let (d, inserted) := insertOne doc (db w) in
      if searchable && (Multer.mimetype asset =? "text/csv")%string
         && negb (makeSearchable (_id inserted)
                                 (UPLOAD_DEST ++ Multer.filename asset))
      then (mkWorld d (fs w) vs, JS.NotCalled)
      else (mkWorld d (fs w) vs,
            JS.CbOk (AssetSummary.mk version (Multer.originalname asset)
                                     (Multer.size asset)
                                     (Multer.mimetype asset)
                                     (Multer.filename asset)
                                     (Multer.fileHash asset)))
  end.

(** The admissions [addAssets] starts, one per asset, in order. *)
Fixpoint addEach (w : World) (wid : string) (assets : list Multer.File)
         (searchables : list string) (source : string)
  : World * list (JS.Callback AssetSummary.t) :=
  match assets with
  | [] => (w, [])
  | asset :: rest =>
      let (w1, r) :=
        addAsset w wid asset
                 (includes searchables (Multer.originalname asset)) source in
      let (w2, rs) := addEach w1 wid rest searchables source in
      (w2, r :: rs)
  end.

Definition oneOrAll {A : Type} (assetRecords : list A) : OneOrMany A :=
  match assetRecords with
  | [record] => One record
  | _ => Many assetRecords
  end.

(** [addAssets(webstrateId, assets, searchables, source, next)]. *)
Definition addAssets (w : World) (wid : string) (assets : list Multer.File)
           (searchables : list string) (source : string)
  : World * JS.Callback (OneOrMany AssetSummary.t) :=
  let (w', promises) := addEach w wid assets searchables source in
  (w', match JS.promiseAll promises with
       | JS.CbOk assetRecords => JS.CbOk (oneOrAll assetRecords)
       | JS.CbErr err => JS.CbErr err
       | JS.NotCalled => JS.NotCalled
       end).

(** The duplicate pass of the upload handler: every file is looked up in
    the collection as it is before any of them is admitted. *)
Fixpoint reuseDuplicates (assets : list Asset) (files : Fs)
         (uploaded : list Multer.File) : Fs * list Multer.File :=
  match uploaded with
  | [] => (files, [])
  | file :: rest =>
      match findDuplicateAsset assets file with
      | None =>
          let (files', rest') := reuseDuplicates assets files rest in
          (files', file :: rest')
      | Some duplicate =>
          let (files', rest') :=
            reuseDuplicates assets
              (deleteAssetFromFileSystem files (Multer.filename file)) rest in
          (files', Multer.set_filename (fileName duplicate) file :: rest')
      end
  end.

(** [assetUploadHandler(req, res)], from the callback of the generated
    upload function on: [err] is the error that function reports. *)
Definition assetUploadHandler (w : World) (err : option Multer.UploadError)
           (req : Request) : World * Response :=
  match err with
  | Some Multer.LIMIT_FILE_SIZE => (w, Status409_MaxFileSize)
  | Some (Multer.OtherError e) => (w, Status409_Raw e)
  | None =>
      match req_files req with
      | None => (w, Status422_ParameterMissing)
      | Some files =>
          let source :=
            (req_userId req ++ " (" ++ req_remoteAddress req ++ ")")%string in
          let files :=
            map (fun file =>
                   Multer.set_fileHash (Some (md5File (Multer.content file)))
                                       file)
                files in
          let (files', files) :=
            reuseDuplicates (docs (db w)) (fs w) files in
          let searchables :=
            match req_searchable req with
            | SearchableAbsent => []
            | SearchableString s =>
                if (s =? "true")%string
                then map Multer.originalname
                         (filter (fun file =>
                                    endsWith (Multer.originalname file) ".csv")
                                 files)
                else []
            | SearchableArray names => names
            end in
          let (w', result) :=
            addAssets (mkWorld (db w) files' (versions w))
                      (req_webstrateId req) files searchables source in
          (w', match result with
               | JS.CbErr e => Status409_Error e
               | JS.CbOk (One record) => Json (One record)
               | JS.CbOk (Many assetRecords) => Json (oneOrAll assetRecords)
               | JS.NotCalled => NoResponse
               end)
      end
  end.

End AssetManager.

(** What [copyAssets] and [restoreAssets] go on to clone: the code's
    resolver, [filterNewestAssets], run on what their [find] gives.  This is
    the code's computation; [resolvedCurrent] below is the spec's set. *)
Definition resolvedAt (assets : list Asset) (wid : string) (version : Z)
  : list Asset :=
  filterNewestAssets (Mongo.find (byVersion wid (Some version)) assets).

(** * Specification vocabulary *)

(** What the server may answer to
    [findOne(query, { sort: { key: -1 } })]: a matching document of
    greatest key, whichever of those it puts first; [null] when nothing
    matches. *)
Definition greatestMatch {Doc : Type} (key : Doc -> Z) (query : Doc -> bool)
           (c : list Doc) (o : option Doc) : Prop :=
  match o with
  | Some d => In d c /\ query d = true /\
              forall x, In x c -> query x = true -> key x <= key d
  | None => forall x, In x c -> query x = false
  end.

(** A query's version bound: the records at or below the version, all
    records when the query names none. *)
Definition upTo (version : option Z) (a : Asset) : Prop :=
  match version with
  | Some V => v a <= V
  | None => True
  end.

(** [r] is the current record of [(wid, name)] under the bound: among the
    records of that document and name within the bound, one of greatest
    [v]. *)
Definition currentRecord (assets : list Asset) (wid name : string)
           (version : option Z) (r : Asset) : Prop :=
  In r assets /\ webstrateId r = wid /\ originalFileName r = name /\
  upTo version r /\
  forall x, In x assets -> webstrateId x = wid -> originalFileName x = name ->
            upTo version x -> v x <= v r.

(** The resolved-current set of a document at a version, in the words of
    the specification (4.2, 4.4): of the document's records with [v] at or
    below the version, grouped by logical name, the record of greatest [v]
    of each group, one record per distinct logical name.  Which of several
    records sharing the greatest [v] stands for a group is left open, as
    the specification leaves it. *)
Definition resolvedCurrent (assets : list Asset) (wid : string) (version : Z)
           (resolved : list Asset) : Prop :=
  NoDup (map originalFileName resolved) /\
  (forall r, In r resolved ->
             currentRecord assets wid (originalFileName r) (Some version) r) /\
  (forall a, In a assets -> webstrateId a = wid -> v a <= version ->
             In (originalFileName a) (map originalFileName resolved)).

(** No record of the document at or below the version bears a name that
    [Object.prototype] defines. *)
Definition plainNames (assets : list Asset) (wid : string) (version : Z)
  : Prop :=
  forall a, In a assets -> webstrateId a = wid -> v a <= version ->
            JsObject.inherited (originalFileName a) = false.

(** [a] is one of [assets] and no asset of the same name is newer. *)
Definition newestOf (assets : list Asset) (a : Asset) : Prop :=
  In a assets /\
  forall b, In b assets -> originalFileName b = originalFileName a ->
            v b <= v a.

(** The invariant of the resolver's pass: after the assets [seen], the
    object's keys are distinct, every entry is filed under its own name and
    is the newest seen of that name, and every name seen that the prototype
    does not shadow has an entry. *)
Definition resolves (seen : list Asset) (o : JsObject.t Asset) : Prop :=
  NoDup (map fst o) /\
  (forall k a, JsObject.getOwn o k = Some a ->
               originalFileName a = k /\ newestOf seen a) /\
  (forall b, In b seen ->
             JsObject.inherited (originalFileName b) = false ->
             In (originalFileName b) (map fst o)).

Definition mapValues {V : Type} (f : V -> V) (o : JsObject.t V)
  : JsObject.t V :=
  map (fun e => (fst e, f (snd e))) o.

(** The documents [insertMany] stores for documents without [_id]. *)
Fixpoint withIds (n : ObjectId) (ds : list Asset) : list Asset :=
  match ds with
  | [] => []
  | x :: r => set_id (Some n) x :: withIds (S n) r
  end.

(** What a clone shares with its source: the storage key, the logical
    name, the content fingerprint and the deletion state. *)
Definition sameContent (src clone : Asset) : Prop :=
  fileName clone = fileName src /\
  originalFileName clone = originalFileName src /\
  fileSize clone = fileSize src /\
  mimeType clone = mimeType src /\
  fileHash clone = fileHash src /\
  deletedAt clone = deletedAt src.

Definition copiedFrom (toWebstrateId : string) (src clone : Asset) : Prop :=
  v clone = 0 /\ webstrateId clone = toWebstrateId /\
  _originalId clone = match _originalId src with
                      | Some original => Some original
                      | None => _id src
                      end /\
  sameContent src clone.

Definition restoredFrom (newVersion : Z) (src clone : Asset) : Prop :=
  v clone = newVersion /\ webstrateId clone = webstrateId src /\
  _originalId clone = _originalId src /\
  sameContent src clone.

(** A record is a duplicate of an uploaded file when size and hash agree,
    whatever document owns it. *)
Definition duplicateOf (asset : Multer.File) (r : Asset) : Prop :=
  fileSize r = Multer.size asset /\ fileHash r = Multer.fileHash asset.

(** The storage key the upload handler settles on for a hashed file. *)
Definition storageKey (assets : list Asset) (file : Multer.File) : string :=
  match findDuplicateAsset assets file with
  | Some duplicate => fileName duplicate
  | None => Multer.filename file
  end.

(** ** Sample data *)

Module Sample.

Definition asset (id : ObjectId) (wid name : string) (version : Z)
           (key : string) (deleted : option Z) : Asset :=
  mkAsset (Some id) None wid version key name 3 "image/png"
          (Some "900150983cd24fb0d6963f7d28e17f72") deleted.

(** Document D: a.png at versions 1 and 3, b.csv at version 1 and deleted
    at version 2. *)
Definition a_v1 : Asset := asset 1%nat "D" "a.png" 1 "f1" None.
Definition a_v3 : Asset := asset 2%nat "D" "a.png" 3 "f2" None.
Definition b_csv : Asset := asset 3%nat "D" "b.csv" 1 "f3" (Some 2).
Definition storeD : list Asset := [a_v1; a_v3; b_csv].
Definition dbD : Db := mkDb storeD 8%nat.

(** Document P, prototyped from another: c.png and z.txt copied in at
    version 0, z.txt marked deleted while P was at version 0, c.png
    uploaded again at version 3. *)
Definition c_v0 : Asset := asset 4%nat "P" "c.png" 0 "f1" None.
Definition z_v0 : Asset := asset 5%nat "P" "z.txt" 0 "f5" (Some 0).
Definition c_v3 : Asset := asset 6%nat "P" "c.png" 3 "f4" None.
Definition storeP : list Asset := [c_v0; z_v0; c_v3].
Definition dbP : Db := mkDb storeP 8%nat.

(** Document E shares the blob f1 with D. *)
Definition e_v1 : Asset := asset 7%nat "E" "e.png" 1 "f1" None.
Definition dbDE : Db := mkDb (storeD ++ [e_v1]) 8%nat.
Definition blobs : Fs := ["f1"; "f2"; "f3"].

Definition abc : list Byte.byte := [Byte.x61; Byte.x62; Byte.x63].

(** Two uploads of the same bytes under different names. *)
Definition upload1 : Multer.File :=
  Multer.mkFile "k1" "one.png" "image/png" 3 abc None.
Definition upload2 : Multer.File :=
  Multer.mkFile "k2" "two.png" "image/png" 3 abc None.

Definition request (files : list Multer.File) : Request :=
  mkRequest "D" (Some files) SearchableAbsent "user" "10.0.0.1".

Definition emptyWorld : World :=
  mkWorld (mkDb [] 0%nat) ["k1"; "k2"] (fun _ => 1).

(** Collaborators: a stand-in digest that tells the empty file from the
    others, a version engine that does not move, a tag lookup that finds nothing, a search
    index whose calls resolve, a record store that accepts every write. *)
Definition md5File (bytes : list Byte.byte) : string :=
  match bytes with
  | [] => "d41d8cd98f00b204e9800998ecf8427e"
  | _ => "900150983cd24fb0d6963f7d28e17f72"
  end.
Definition sendNoOp (wid source : string) (vs : Versions) : Versions := vs.
Definition getVersionFromTag (wid : string) (tag : option string)
  : JS.Callback (option Z) :=
  JS.CbErr (JS.Err "tag not found").
Definition makeSearchable (assetId : option ObjectId) (path : string) : bool :=
  true.
Definition deleteSearchable (assetId : option ObjectId) : bool := true.
Definition insertError (doc : Asset) : option JS.Error := None.

(** Every unlink fails, or none does. *)
Definition unlinkAlwaysFails (path : string) : bool := true.
Definition unlinkWorks (path : string) : bool := false.

Definition uploadHandler : World -> option Multer.UploadError -> Request
                           -> World * Response :=
  assetUploadHandler md5File "/srv/webstrates/uploads/" sendNoOp
                     makeSearchable unlinkWorks insertError.

End Sample.

(** * Listings and maintenance *)

Module Projected.

(** An asset document under the projection
    [{ _id: 0, _originalId: 0, webstrateId: 0 }]. *)
Record t : Type := mk {
  v : Z;
  fileName : string;
  originalFileName : string;
  fileSize : Z;
  mimeType : string;
  fileHash : option string;
  deletedAt : option Z
}.

End Projected.

Definition projected (a : Asset) : Projected.t :=
  Projected.mk (v a) (fileName a) (originalFileName a) (fileSize a)
               (mimeType a) (fileHash a) (deletedAt a).

Module Listed.

(** An entry of [getAssets]: the projected document after
    [asset.identifier = asset.fileName],
    [asset.fileName = asset.originalFileName] and
    [delete asset.originalFileName]. *)
Record t : Type := mk {
  v : Z;
  fileName : string;
  fileSize : Z;
  mimeType : string;
  fileHash : option string;
  deletedAt : option Z;
  identifier : string
}.

End Listed.

Definition listed (asset : Projected.t) : Listed.t :=
  Listed.mk (Projected.v asset) (Projected.originalFileName asset)
            (Projected.fileSize asset) (Projected.mimeType asset)
            (Projected.fileHash asset) (Projected.deletedAt asset)
            (Projected.fileName asset).

Section Resolver.

(** [filterNewestAssets] reads nothing of an asset but [originalFileName]
    and [v], and [getCurrentAssets] calls it on projected documents: the
    same function over any documents with these two fields. *)
Context {Doc : Type}.
Variable nameOf : Doc -> string.
Variable versionOf : Doc -> Z.

Definition keepNewestBy (filteredAssets : JsObject.t Doc) (asset : Doc)
  : JsObject.t Doc :=
  match JsObject.get filteredAssets (nameOf asset) with
  | JsObject.Undefined => JsObject.set filteredAssets (nameOf asset) asset
  | JsObject.Own kept =>
      if versionOf kept <? versionOf asset
      then JsObject.set filteredAssets (nameOf asset) asset
      else filteredAssets
  | JsObject.Inherited => filteredAssets
  end.

Definition filterNewestBy (assets : list Doc) : list Doc :=
  let filteredAssets := fold_left keepNewestBy assets JsObject.empty in
  flat_map (fun key => match JsObject.getOwn filteredAssets key with
                       | Some asset => [asset]
                       | None => []
                       end)
           (JsObject.keys filteredAssets).

End Resolver.

(** [getAssets(webstrateId, next)]: what [next] receives. *)
Definition getAssets (assets : list Asset) (wid : string) : list Listed.t :=
  map listed
      (map projected
           (Mongo.find (fun a => (webstrateId a =? wid)%string) assets)).

(** [getCurrentAssets(webstrateId, next)]: what [next] receives. *)
Definition getCurrentAssets (assets : list Asset) (wid : string)
  : list Projected.t :=
  let assets :=
    map projected
        (Mongo.find (fun a => (webstrateId a =? wid)%string) assets) in
  let assets :=
    filterNewestBy Projected.originalFileName Projected.v assets in
  filter (fun asset => negb (JS.truthy_opt (Projected.deletedAt asset)))
         assets.

(** [deleteOne(query)]: the first match in natural order is removed. *)
Fixpoint deleteOne {Doc : Type} (query : Doc -> bool) (c : list Doc)
  : list Doc :=
  match c with
  | [] => []
  | x :: t => if query x then t else x :: deleteOne query t
  end.

(** [deleteAssetFromDatabase(fileName)]. *)
Definition deleteAssetFromDatabase (assets : list Asset) (files : Fs)
           (name : string) : list Asset :=
  if (name =? "")%string || existsSync files name then assets
  else deleteOne (fun a => (fileName a =? name)%string) assets.

(** ** Further vocabulary *)

(** [d] is the first of the greatest elements of [l]: everything before it
    is strictly smaller, nothing after it is greater. *)
Definition firstMax {Doc : Type} (key : Doc -> Z) (l : list Doc) (d : Doc)
  : Prop :=
  exists before after,
    l = before ++ d :: after /\
    (forall b, In b before -> key b < key d) /\
    (forall b, In b after -> key b <= key d).

(** [a] is, among the assets of its name, the first of the newest. *)
Definition firstNewestOf (assets : list Asset) (a : Asset) : Prop :=
  exists before after,
    assets = before ++ a :: after /\
    (forall b, In b before -> originalFileName b = originalFileName a ->
               v b < v a) /\
    (forall b, In b after -> originalFileName b = originalFileName a ->
               v b <= v a).

(** The resolver's pass keeps the first of the newest and files nothing
    under a name of [Object.prototype]. *)
Definition resolvesFirst (seen : list Asset) (o : JsObject.t Asset) : Prop :=
  (forall k a, JsObject.getOwn o k = Some a -> firstNewestOf seen a) /\
  (forall k, In k (map fst o) -> JsObject.inherited k = false).

Definition mapValuesTo {A B : Type} (f : A -> B) (o : JsObject.t A)
  : JsObject.t B :=
  map (fun e => (fst e, f (snd e))) o.

Definition isCbErr {A : Type} (c : JS.Callback A) : bool :=
  match c with
  | JS.CbErr _ => true
  | _ => false
  end.

(** What [getAsset] answers when [asset] is the document found. *)
Definition served (version : option Z) (asset : Asset)
  : JS.Promise (option Asset) :=
  if JS.truthy_opt (deletedAt asset)
     && ((JS.truthy_opt version && JS.le_opt (deletedAt asset) version)
         || negb (JS.truthy_opt version))
  then JS.Resolved None
  else JS.Resolved (Some asset).

(** ** More sample data *)

Module SampleMore.

(** Document D's records and blobs, with two freshly uploaded blobs. *)
Definition worldD : World :=
  mkWorld Sample.dbD ["f1"; "f2"; "f3"; "k1"; "k2"] (fun _ => 4).

(** A tag lookup that calls back without a version. *)
Definition tagWithoutVersion (wid : string) (tag : option string)
  : JS.Callback (option Z) :=
  JS.CbOk None.

(** What admitting the first sample upload into the empty store hands to
    the callback. *)
Definition summary1 : AssetSummary.t :=
  AssetSummary.mk 1 "one.png" 3 "image/png" "k1" None.

(** A record store that refuses the second sample upload. *)
Definition refusesTwo (doc : Asset) : option JS.Error :=
  if (originalFileName doc =? "two.png")%string
  then Some (JS.Err "write refused") else None.

(** Document K holds a record named like a property of [Object.prototype]
    beside an ordinary one; document J holds such a record only. *)
Definition k_ctor : Asset := Sample.asset 9%nat "K" "constructor" 1 "f9" None.
Definition k_png : Asset := Sample.asset 10%nat "K" "k.png" 1 "f10" None.
Definition j_ctor : Asset := Sample.asset 11%nat "J" "constructor" 1 "f9" None.
Definition dbKJ : Db := mkDb [k_ctor; k_png; j_ctor] 12%nat.

(** A search index whose deletions never settle. *)
Definition indexNeverSettles (assetId : option ObjectId) : bool := false.

End SampleMore.

(** * Properties of the driver calls *)

Section SortedLookup.

Context {Doc : Type}.
Variable key : Doc -> Z.

Lemma insertDesc_head (d : Doc) (l : list Doc) :
  exists h t, Mongo.insertDesc key d l = h :: t /\
    (h = d \/ (exists t', l = h :: t' /\ key d < key h)) /\
    (forall x, hd_error l = Some x -> key x <= key h).
Proof.
  destruct l as [|x t]; simpl.
  - exists d, []. split; [reflexivity|]. split; [now left|]. discriminate.
  - destruct (key x <=? key d) eqn:E.
    + exists d, (x :: t). split; [reflexivity|]. split; [now left|].
      intros y [= <-]. now apply Z.leb_le.
    + exists x, (Mongo.insertDesc key d t). split; [reflexivity|].
      apply Z.leb_gt in E. split.
      * right. now exists t.
      * intros y [= <-]. lia.
Qed.

Lemma sortDesc_cons (a : Doc) (l : list Doc) :
  Mongo.sortDesc key (a :: l) = Mongo.insertDesc key a (Mongo.sortDesc key l).
Proof. reflexivity. Qed.

Lemma sortDesc_nil_inv (l : list Doc) : Mongo.sortDesc key l = [] -> l = [].
Proof.
  destruct l as [|a l]; [reflexivity|]. rewrite sortDesc_cons.
  destruct (insertDesc_head a (Mongo.sortDesc key l)) as (h & t & E & _).
  rewrite E. discriminate.
Qed.

Lemma sortDesc_head_newest (l : list Doc) (d : Doc) :
  hd_error (Mongo.sortDesc key l) = Some d ->
  In d l /\ forall x, In x l -> key x <= key d.
Proof.
  revert d. induction l as [|a l IH]; intros d.
  - discriminate.
  - rewrite sortDesc_cons.
    destruct (insertDesc_head a (Mongo.sortDesc key l))
      as (h & t & E & Hh & Hle).
    rewrite E. simpl. intros [= <-].
    destruct Hh as [-> | (t' & Et & Hlt)].
    + split; [now left|]. intros x [<- | Hx]; [lia|].
      destruct (Mongo.sortDesc key l) as [|y s] eqn:Es.
      * apply sortDesc_nil_inv in Es. subst l. destruct Hx.
      * specialize (Hle y eq_refl). destruct (IH y eq_refl) as [_ Hmax].
        specialize (Hmax x Hx). lia.
    + rewrite Et in IH. destruct (IH h eq_refl) as [Hin Hmax].
      split; [now right|].
      intros x [<- | Hx]; [lia | now apply Hmax].
Qed.

Lemma sortDesc_head_none (l : list Doc) :
  hd_error (Mongo.sortDesc key l) = None -> l = [].
Proof.
  intros H. apply sortDesc_nil_inv.
  destruct (Mongo.sortDesc key l); [reflexivity | discriminate].
Qed.

Lemma findOneSorted_some (query : Doc -> bool) (c : list Doc) (d : Doc) :
  Mongo.findOneSorted key query c = Some d ->
  In d c /\ query d = true /\
  forall x, In x c -> query x = true -> key x <= key d.
Proof.
  unfold Mongo.findOneSorted, Mongo.find. intros H.
  apply sortDesc_head_newest in H. destruct H as [Hin Hmax].
  apply filter_In in Hin. destruct Hin as [Hin Hq].
  repeat split; trivial. intros x Hx Hqx. apply Hmax, filter_In. now split.
Qed.

Lemma findOneSorted_none (query : Doc -> bool) (c : list Doc) :
  Mongo.findOneSorted key query c = None ->
  forall x, In x c -> query x = false.
Proof.
  unfold Mongo.findOneSorted, Mongo.find. intros H x Hx.
  apply sortDesc_head_none in H.
  destruct (query x) eqn:E; [|reflexivity].
  assert (Hf : In x (filter query c)) by (apply filter_In; now split).
  rewrite H in Hf. destruct Hf.
Qed.

Lemma findOneSorted_found (query : Doc -> bool) (c : list Doc) (x : Doc) :
  In x c -> query x = true ->
  exists d, Mongo.findOneSorted key query c = Some d.
Proof.
  intros Hx Hq. destruct (Mongo.findOneSorted key query c) as [d|] eqn:E.
  - now exists d.
  - rewrite (findOneSorted_none _ _ E x Hx) in Hq. discriminate.
Qed.

(** The sorted lookup answers as the server may. *)
Lemma findOneSorted_greatestMatch (query : Doc -> bool) (c : list Doc) :
  greatestMatch key query c (Mongo.findOneSorted key query c).
Proof.
  destruct (Mongo.findOneSorted key query c) as [d|] eqn:E; simpl.
  - now apply findOneSorted_some.
  - now apply findOneSorted_none.
Qed.

Lemma NoDup_map_injective (l : list Doc) (x y : Doc) :
  NoDup (map key l) -> In x l -> In y l -> key x = key y -> x = y.
Proof.
  induction l as [|a r IH]; intros Hnd Hx Hy E; [destruct Hx|].
  simpl in Hnd. inversion Hnd as [|? ? Hnotin Hnd']; subst.
  destruct Hx as [<- | Hx], Hy as [<- | Hy]; trivial.
  - contradiction Hnotin. rewrite E. now apply in_map.
  - contradiction Hnotin. rewrite <- E. now apply in_map.
  - now apply IH.
Qed.

(** When the matching documents have distinct keys, the server has one
    answer only, whatever its order among equal keys. *)
Lemma greatestMatch_unique (query : Doc -> bool) (c : list Doc)
      (o : option Doc) :
  NoDup (map key (Mongo.find query c)) ->
  greatestMatch key query c o -> o = Mongo.findOneSorted key query c.
Proof.
  intros Hnd Ho.
  pose proof (findOneSorted_greatestMatch query c) as Hm.
  destruct o as [d|], (Mongo.findOneSorted key query c) as [d'|];
    simpl in Ho, Hm; trivial.
  - destruct Ho as (Hin & Hq & Hmax), Hm as (Hin' & Hq' & Hmax').
    f_equal. apply (NoDup_map_injective _ _ _ Hnd).
    + apply filter_In. now split.
    + apply filter_In. now split.
    + specialize (Hmax d' Hin' Hq'). specialize (Hmax' d Hin Hq). lia.
  - destruct Ho as (Hin & Hq & _). rewrite (Hm d Hin) in Hq. discriminate.
  - destruct Hm as (Hin & Hq & _). rewrite (Ho d' Hin) in Hq. discriminate.
Qed.

End SortedLookup.

Lemma option_eqb_eq {A : Type} (eqb : A -> A -> bool) (x y : option A) :
  (forall a b, eqb a b = true -> a = b) ->
  option_eqb eqb x y = true -> x = y.
Proof.
  intros H. destruct x, y; simpl; try discriminate; trivial.
  intros E. f_equal. now apply H.
Qed.

Lemma option_eqb_string (x y : option string) :
  option_eqb String.eqb x y = true <-> x = y.
Proof.
  split.
  - apply option_eqb_eq. intros a b. apply String.eqb_eq.
  - intros <-. destruct x; simpl; [apply String.eqb_refl | reflexivity].
Qed.

Lemma Asset_eqb_refl a : Asset_eqb a a = true.
Proof.
  unfold Asset_eqb.
  repeat (apply andb_true_intro; split);
    try apply String.eqb_refl; try apply Z.eqb_refl.
  - destruct (_id a); simpl; [apply Nat.eqb_refl | reflexivity].
  - destruct (_originalId a); simpl; [apply Nat.eqb_refl | reflexivity].
  - destruct (fileHash a); simpl; [apply String.eqb_refl | reflexivity].
  - destruct (deletedAt a); simpl; [apply Z.eqb_refl | reflexivity].
Qed.

Lemma Asset_eqb_eq a b : Asset_eqb a b = true -> a = b.
Proof.
  unfold Asset_eqb. intros H.
  repeat (apply andb_prop in H; let H' := fresh "F" in destruct H as [H H']).
  destruct a, b; simpl in *.
  apply option_eqb_eq in H; [|intros ? ?; apply Nat.eqb_eq].
  apply option_eqb_eq in F7; [|intros ? ?; apply Nat.eqb_eq].
  apply option_eqb_eq in F0; [|intros ? ?; apply String.eqb_eq].
  apply option_eqb_eq in F; [|intros ? ?; apply Z.eqb_eq].
  apply String.eqb_eq in F6, F4, F3, F1. apply Z.eqb_eq in F5, F2.
  congruence.
Qed.

Lemma updateOne_in (update : Asset -> Asset) (c : list Asset) (r : Asset) :
  In r c ->
  exists before after,
    c = before ++ r :: after /\
    Mongo.updateOne Asset_eqb r update c = before ++ update r :: after.
Proof.
  induction c as [|x t IH]; intros Hin; [destruct Hin|]. simpl.
  destruct (Asset_eqb x r) eqn:E.
  - apply Asset_eqb_eq in E. subst x. now exists [], t.
  - destruct Hin as [-> | Hin].
    + rewrite Asset_eqb_refl in E. discriminate.
    + destruct (IH Hin) as (before & after & -> & ->).
      now exists (x :: before), after.
Qed.


Lemma insertMany_fresh ds : forall d,
  (forall x, In x ds -> _id x = None) ->
  insertMany ds d
  = mkDb (docs d ++ withIds (nextId d) ds) (nextId d + List.length ds)%nat.
Proof.
  induction ds as [|x r IH]; intros d Hnone; simpl.
  - rewrite app_nil_r, Nat.add_0_r. now destruct d.
  - unfold insertMany in *. simpl. rewrite IH.
    + unfold insertOne. rewrite (Hnone x (or_introl eq_refl)). simpl.
      rewrite <- app_assoc. simpl. f_equal. lia.
    + intros y Hy. apply Hnone. now right.
Qed.

Lemma withIds_Forall2 (R : Asset -> Asset -> Prop) (g : Asset -> Asset)
      (l : list Asset) :
  (forall src i, In src l -> R src (set_id (Some i) (g src))) ->
  forall n, Forall2 R l (withIds n (map g l)).
Proof.
  induction l as [|x r IH]; intros HR n; simpl; constructor.
  - apply HR. now left.
  - apply IH. intros src i Hsrc. apply HR. now right.
Qed.

Lemma includes_In (l : list string) (x : string) :
  includes l x = true <-> In x l.
Proof.
  unfold includes. rewrite existsb_exists. split.
  - intros (y & Hy & E). apply String.eqb_eq in E. now subst.
  - intros H. exists x. split; [assumption | apply String.eqb_refl].
Qed.

(** * Properties of plain objects *)

Section ObjectFacts.

Context {V : Type}.
Implicit Types (o : JsObject.t V) (k : string) (x : V).

Lemma getOwn_set o k x k' :
  JsObject.getOwn (JsObject.set o k x) k'
  = if (k =? k')%string then Some x else JsObject.getOwn o k'.
Proof.
  induction o as [|[k0 y] r IH]; simpl.
  - reflexivity.
  - destruct (String.eqb_spec k0 k) as [->|Hne]; simpl.
    + destruct (String.eqb_spec k k'); reflexivity.
    + rewrite IH. destruct (String.eqb_spec k0 k') as [->|Hne'].
      * destruct (String.eqb_spec k k'); [congruence | reflexivity].
      * reflexivity.
Qed.

Lemma getOwn_none o k :
  JsObject.getOwn o k = None <-> ~ In k (map fst o).
Proof.
  induction o as [|[k0 y] r IH]; simpl.
  - tauto.
  - destruct (String.eqb_spec k0 k) as [->|Hne].
    + split; [discriminate | tauto].
    + rewrite IH. tauto.
Qed.

Lemma getOwn_some_key o k x :
  JsObject.getOwn o k = Some x -> In k (map fst o).
Proof.
  intros H. destruct (in_dec string_dec k (map fst o)) as [Hin|Hnin]; trivial.
  apply getOwn_none in Hnin. congruence.
Qed.

Lemma keys_set_own o k x :
  In k (map fst o) -> map fst (JsObject.set o k x) = map fst o.
Proof.
  induction o as [|[k0 y] r IH]; simpl; [tauto|].
  intros Hin. destruct (String.eqb_spec k0 k) as [->|Hne]; simpl.
  - reflexivity.
  - f_equal. apply IH. destruct Hin; [contradiction | assumption].
Qed.

Lemma keys_set_new o k x :
  ~ In k (map fst o) -> map fst (JsObject.set o k x) = map fst o ++ [k].
Proof.
  induction o as [|[k0 y] r IH]; simpl; [reflexivity|].
  intros Hnin. destruct (String.eqb_spec k0 k) as [->|Hne]; simpl.
  - tauto.
  - f_equal. apply IH. tauto.
Qed.

Lemma NoDup_keys_set o k x :
  NoDup (map fst o) -> NoDup (map fst (JsObject.set o k x)).
Proof.
  intros Hnd. destruct (in_dec string_dec k (map fst o)) as [Hin|Hnin].
  - now rewrite keys_set_own.
  - rewrite keys_set_new by assumption.
    apply NoDup_rev in Hnd. rewrite <- (rev_involutive (map fst o ++ [k])).
    apply NoDup_rev. rewrite rev_app_distr. simpl. constructor; trivial.
    now rewrite <- in_rev.
Qed.

Lemma insertIndex_perm (e : string * V) (l : JsObject.t V) :
  Permutation (JsObject.insertIndex e l) (e :: l).
Proof.
  induction l as [|y r IH]; simpl.
  - reflexivity.
  - destruct (JsObject.indexOf (fst e) <=? JsObject.indexOf (fst y))%N.
    + reflexivity.
    + rewrite IH. apply perm_swap.
Qed.

Lemma sortIndex_perm (l : JsObject.t V) :
  Permutation (fold_right JsObject.insertIndex [] l) l.
Proof.
  induction l as [|e r IH]; simpl.
  - reflexivity.
  - rewrite insertIndex_perm. now constructor.
Qed.

Lemma filter_split_perm {A : Type} (p : A -> bool) (l : list A) :
  Permutation (filter p l ++ filter (fun a => negb (p a)) l) l.
Proof.
  induction l as [|a r IH]; simpl.
  - reflexivity.
  - destruct (p a); simpl.
    + now constructor.
    + rewrite <- Permutation_middle. now constructor.
Qed.

Lemma ordered_perm o : Permutation (JsObject.ordered o) o.
Proof.
  unfold JsObject.ordered. rewrite sortIndex_perm. apply filter_split_perm.
Qed.

Lemma keys_perm o : Permutation (JsObject.keys o) (map fst o).
Proof. unfold JsObject.keys. apply Permutation_map, ordered_perm. Qed.

End ObjectFacts.

(** * The version resolver *)

Lemma newestOf_snoc_other assets a b :
  newestOf assets a -> originalFileName b <> originalFileName a ->
  newestOf (assets ++ [b]) a.
Proof.
  intros [Hin Hmax] Hne. split.
  - apply in_or_app. now left.
  - intros c Hc Hn. apply in_app_or in Hc. destruct Hc as [Hc | [<- | []]].
    + now apply Hmax.
    + contradiction.
Qed.

Lemma newestOf_snoc_older assets a b :
  newestOf assets a -> v b <= v a -> newestOf (assets ++ [b]) a.
Proof.
  intros [Hin Hmax] Hle. split.
  - apply in_or_app. now left.
  - intros c Hc Hn. apply in_app_or in Hc. destruct Hc as [Hc | [<- | []]].
    + now apply Hmax.
    + assumption.
Qed.

Lemma newestOf_snoc_newer assets a b :
  newestOf assets a -> originalFileName b = originalFileName a ->
  v a < v b -> newestOf (assets ++ [b]) b.
Proof.
  intros [Hin Hmax] Hn Hlt. split.
  - apply in_or_app. right. now left.
  - intros c Hc Hnc. apply in_app_or in Hc. destruct Hc as [Hc | [<- | []]].
    + assert (v c <= v a) by (apply Hmax; congruence). lia.
    + lia.
Qed.

Lemma newestOf_snoc_first assets b :
  (forall c, In c assets -> originalFileName c <> originalFileName b) ->
  newestOf (assets ++ [b]) b.
Proof.
  intros Hfresh. split.
  - apply in_or_app. right. now left.
  - intros c Hc Hnc. apply in_app_or in Hc. destruct Hc as [Hc | [<- | []]].
    + now apply Hfresh in Hc.
    + lia.
Qed.

Lemma resolves_empty : resolves [] JsObject.empty.
Proof.
  split; [constructor|]. split.
  - intros k a H. discriminate.
  - intros b [].
Qed.

Lemma resolves_keepNewest assets o a :
  resolves assets o -> resolves (assets ++ [a]) (keepNewest o a).
Proof.
  intros (Hnd & Hown & Hall). unfold keepNewest, JsObject.get.
  destruct (JsObject.getOwn o (originalFileName a)) as [kept|] eqn:Eg.
  - (* the name has an own entry *)
    destruct (Hown _ _ Eg) as [Hname Hkept].
    pose proof (getOwn_some_key _ _ _ Eg) as Hkey.
    destruct (v kept <? v a) eqn:Elt.
    + apply Z.ltb_lt in Elt. split; [now apply NoDup_keys_set|]. split.
      * intros k b. rewrite getOwn_set.
        destruct (String.eqb_spec (originalFileName a) k) as [<-|Hne].
        -- intros [= <-]. split; [reflexivity|].
           now apply newestOf_snoc_newer with kept.
        -- intros Hb. destruct (Hown _ _ Hb) as [Hnb Hnew].
           split; [assumption|]. apply newestOf_snoc_other; congruence.
      * intros b Hb Hinh. rewrite keys_set_own by assumption.
        apply in_app_or in Hb. destruct Hb as [Hb | [<- | []]]; auto.
    + apply Z.ltb_ge in Elt. split; [assumption|]. split.
      * intros k b Hb. destruct (Hown _ _ Hb) as [Hnb Hnew].
        split; [assumption|].
        destruct (string_dec (originalFileName a) k) as [<-|Hne].
        -- assert (b = kept) by congruence. subst b.
           now apply newestOf_snoc_older.
        -- apply newestOf_snoc_other; congruence.
      * intros b Hb Hinh.
        apply in_app_or in Hb. destruct Hb as [Hb | [<- | []]]; auto.
  - (* no own entry under the name *)
    pose proof (proj1 (getOwn_none _ _) Eg) as Hfresh.
    assert (Hothers : forall k b, JsObject.getOwn o k = Some b ->
              originalFileName b = k /\ newestOf (assets ++ [a]) b).
    { intros k b Hb. destruct (Hown _ _ Hb) as [Hnb Hnew].
      split; [assumption|]. apply newestOf_snoc_other; trivial.
      intros Heq. apply Hfresh. rewrite Heq, Hnb.
      now apply getOwn_some_key with b. }
    destruct (JsObject.inherited (originalFileName a)) eqn:Einh.
    + split; [assumption|]. split; [assumption|].
      intros b Hb Hinh.
      apply in_app_or in Hb. destruct Hb as [Hb | [<- | []]]; auto.
      congruence.
    + split; [now apply NoDup_keys_set|]. split.
      * intros k b. rewrite getOwn_set.
        destruct (String.eqb_spec (originalFileName a) k) as [<-|Hne].
        -- intros [= <-]. split; [reflexivity|].
           apply newestOf_snoc_first. intros c Hc Heq.
           destruct (JsObject.inherited (originalFileName c)) eqn:Ec.
           ++ congruence.
           ++ apply Hfresh. rewrite <- Heq. now apply Hall.
        -- apply Hothers.
      * intros b Hb Hinh. rewrite keys_set_new by assumption.
        apply in_or_app.
        apply in_app_or in Hb. destruct Hb as [Hb | [<- | []]].
        -- left. now apply Hall.
        -- right. now left.
Qed.

Lemma resolves_fold assets : forall seen o,
  resolves seen o -> resolves (seen ++ assets) (fold_left keepNewest assets o).
Proof.
  induction assets as [|a rest IH]; intros seen o H; simpl.
  - now rewrite app_nil_r.
  - replace (seen ++ a :: rest) with ((seen ++ [a]) ++ rest)
      by now rewrite <- app_assoc.
    apply IH. now apply resolves_keepNewest.
Qed.

Lemma resolves_filtered assets :
  resolves assets (fold_left keepNewest assets JsObject.empty).
Proof. apply (resolves_fold assets [] JsObject.empty), resolves_empty. Qed.

(** The values read back through [Object.keys]. *)
Lemma values_in (o : JsObject.t Asset) (ks : list string) (a : Asset) :
  In a (flat_map (fun key => match JsObject.getOwn o key with
                             | Some asset => [asset]
                             | None => []
                             end) ks) <->
  exists k, In k ks /\ JsObject.getOwn o k = Some a.
Proof.
  rewrite in_flat_map. split.
  - intros (k & Hk & Ha). exists k. split; trivial.
    destruct (JsObject.getOwn o k); [|destruct Ha].
    destruct Ha as [<- | []]. reflexivity.
  - intros (k & Hk & Ha). exists k. split; trivial. rewrite Ha. now left.
Qed.

Lemma values_names (o : JsObject.t Asset) (ks : list string) :
  (forall k, In k ks -> exists a,
     JsObject.getOwn o k = Some a /\ originalFileName a = k) ->
  map originalFileName
      (flat_map (fun key => match JsObject.getOwn o key with
                            | Some asset => [asset]
                            | None => []
                            end) ks) = ks.
Proof.
  induction ks as [|k r IH]; intros H; simpl.
  - reflexivity.
  - destruct (H k (or_introl eq_refl)) as (a & -> & Hn). simpl.
    rewrite Hn. f_equal. apply IH. intros k' Hk'. apply H. now right.
Qed.

Lemma filterNewestAssets_names assets :
  Permutation (map originalFileName (filterNewestAssets assets))
              (map fst (fold_left keepNewest assets JsObject.empty)).
Proof.
  unfold filterNewestAssets.
  destruct (resolves_filtered assets) as (Hnd & Hown & _).
  rewrite values_names.
  - apply keys_perm.
  - intros k Hk.
    apply (Permutation_in _ (keys_perm _)) in Hk.
    destruct (JsObject.getOwn (fold_left keepNewest assets JsObject.empty) k)
      as [a|] eqn:E.
    + exists a. split; [reflexivity|]. now destruct (Hown _ _ E).
    + apply getOwn_none in E. contradiction.
Qed.

Lemma filterNewestAssets_newestOf assets r :
  In r (filterNewestAssets assets) -> newestOf assets r.
Proof.
  unfold filterNewestAssets. intros H. apply values_in in H.
  destruct H as (k & _ & Hk).
  destruct (resolves_filtered assets) as (_ & Hown & _).
  now destruct (Hown _ _ Hk).
Qed.

Lemma filterNewestAssets_NoDup assets :
  NoDup (map originalFileName (filterNewestAssets assets)).
Proof.
  destruct (resolves_filtered assets) as (Hnd & _).
  apply (Permutation_NoDup (Permutation_sym (filterNewestAssets_names assets))).
  assumption.
Qed.

Lemma filterNewestAssets_covers assets b :
  In b assets -> JsObject.inherited (originalFileName b) = false ->
  exists r, In r (filterNewestAssets assets) /\
            originalFileName r = originalFileName b.
Proof.
  intros Hb Hinh.
  destruct (resolves_filtered assets) as (_ & _ & Hall).
  specialize (Hall b Hb Hinh).
  apply (Permutation_in _ (Permutation_sym (filterNewestAssets_names assets)))
    in Hall.
  apply in_map_iff in Hall. destruct Hall as (r & Hn & Hr). now exists r.
Qed.

Section Naturality.

(** The resolver only looks at names and versions, so it commutes with a
    change of the other fields. *)
Variable f : Asset -> Asset.
Hypothesis f_name : forall a, originalFileName (f a) = originalFileName a.
Hypothesis f_v : forall a, v (f a) = v a.

Lemma getOwn_mapValues (o : JsObject.t Asset) k :
  JsObject.getOwn (mapValues f o) k = option_map f (JsObject.getOwn o k).
Proof.
  induction o as [|[k0 y] r IH]; simpl; [reflexivity|].
  destruct (k0 =? k)%string; [reflexivity | apply IH].
Qed.

Lemma set_mapValues (o : JsObject.t Asset) k x :
  JsObject.set (mapValues f o) k (f x) = mapValues f (JsObject.set o k x).
Proof.
  induction o as [|[k0 y] r IH]; simpl; [reflexivity|].
  destruct (k0 =? k)%string; simpl; [reflexivity | now rewrite IH].
Qed.

Lemma keepNewest_mapValues (o : JsObject.t Asset) a :
  keepNewest (mapValues f o) (f a) = mapValues f (keepNewest o a).
Proof.
  unfold keepNewest, JsObject.get. rewrite f_name, getOwn_mapValues.
  destruct (JsObject.getOwn o (originalFileName a)) as [kept|]; simpl.
  - rewrite !f_v. destruct (v kept <? v a); [apply set_mapValues | reflexivity].
  - destruct (JsObject.inherited (originalFileName a));
      [reflexivity | apply set_mapValues].
Qed.

Lemma fold_keepNewest_mapValues (l : list Asset) : forall o,
  fold_left keepNewest (map f l) (mapValues f o)
  = mapValues f (fold_left keepNewest l o).
Proof.
  induction l as [|a r IH]; intros o; simpl; [reflexivity|].
  now rewrite keepNewest_mapValues, IH.
Qed.

Lemma insertIndex_mapValues (e : string * Asset) (l : JsObject.t Asset) :
  JsObject.insertIndex (fst e, f (snd e)) (mapValues f l)
  = mapValues f (JsObject.insertIndex e l).
Proof.
  induction l as [|y r IH]; simpl; [reflexivity|].
  destruct (JsObject.indexOf (fst e) <=? JsObject.indexOf (fst y))%N; simpl;
    [reflexivity | now rewrite IH].
Qed.

Lemma ordered_mapValues (o : JsObject.t Asset) :
  JsObject.ordered (mapValues f o) = mapValues f (JsObject.ordered o).
Proof.
  unfold JsObject.ordered, mapValues at 3. rewrite map_app. f_equal.
  - induction o as [|e r IH]; simpl; [reflexivity|].
    destruct (JsObject.isIndex (fst e)); simpl; [|apply IH].
    rewrite IH. apply insertIndex_mapValues.
  - induction o as [|e r IH]; simpl; [reflexivity|].
    destruct (JsObject.isIndex (fst e)); simpl; [apply IH | now rewrite IH].
Qed.

Lemma keys_mapValues (o : JsObject.t Asset) :
  JsObject.keys (mapValues f o) = JsObject.keys o.
Proof.
  unfold JsObject.keys. rewrite ordered_mapValues. unfold mapValues.
  rewrite map_map. reflexivity.
Qed.

Lemma filterNewestAssets_map (l : list Asset) :
  filterNewestAssets (map f l) = map f (filterNewestAssets l).
Proof.
  unfold filterNewestAssets.
  change (@JsObject.empty Asset) with (mapValues f (@JsObject.empty Asset)) at 1 2.
  rewrite fold_keepNewest_mapValues, keys_mapValues.
  induction (JsObject.keys (fold_left keepNewest l JsObject.empty))
    as [|k r IH]; simpl; [reflexivity|].
  rewrite map_app, IH, getOwn_mapValues.
  now destruct (JsObject.getOwn (fold_left keepNewest l JsObject.empty) k).
Qed.

End Naturality.

(** * Retrieval and soft deletion *)

Lemma byName_true wid name a :
  byName wid name a = true <-> webstrateId a = wid /\ originalFileName a = name.
Proof. unfold byName. now rewrite andb_true_iff, !String.eqb_eq. Qed.

Lemma byVersion_true wid version a :
  byVersion wid (Some version) a = true <->
  webstrateId a = wid /\ v a <= version.
Proof.
  unfold byVersion. simpl. now rewrite andb_true_iff, String.eqb_eq, Z.leb_le.
Qed.

Section GetAsset.

Variables (assets : list Asset) (wid name : string).

Lemma getAssetQuery_true version a :
  version <> Some 0 ->
  getAssetQuery wid name version a = true <->
  webstrateId a = wid /\ originalFileName a = name /\ upTo version a.
Proof.
  intros Hv. unfold getAssetQuery.
  rewrite andb_true_iff, byName_true.
  destruct version as [V|]; simpl.
  - unfold JS.truthy. destruct (Z.eqb_spec V 0) as [->|Hne]; [congruence|].
    simpl. rewrite Z.leb_le. tauto.
  - tauto.
Qed.



(** C6.  When no record of the document and name lies within the version
    bound of the query, [findOne] yields [null], reading [deletedAt] of it
    throws and the promise [getAsset] returns is rejected with a
    [TypeError]; no absent result is returned. *)
Theorem getAsset_no_record_rejects (version : option Z) :
  version <> Some 0 ->
  (forall x, In x assets -> webstrateId x = wid ->
             originalFileName x = name -> ~ upTo version x) ->
  getAsset assets wid name version = JS.Rejected JS.TypeError.
Proof.
  intros Hv Hnone. unfold getAsset.
  destruct (Mongo.findOneSorted v (getAssetQuery wid name version) assets)
    as [r|] eqn:E; [|reflexivity].
  apply findOneSorted_some in E. destruct E as (Hin & Hq & _).
  apply getAssetQuery_true in Hq; trivial. destruct Hq as (Hw & Hn & Hu).
  destruct (Hnone r Hin Hw Hn Hu).
Qed.


End GetAsset.



(** Witness for C6: document D has no asset named missing.png. *)
Lemma getAsset_no_record_rejects_witness :
  getAsset Sample.storeD "D" "missing.png" None = JS.Rejected JS.TypeError.
Proof.
  apply (getAsset_no_record_rejects Sample.storeD "D" "missing.png" None).
  - discriminate.
  - intros x [<- | [<- | [<- | []]]] _ Hname; discriminate Hname.
Defined.



Section MarkAssetAsDeleted.

Variables (vs : Versions) (assets : list Asset) (wid name : string).

(** C4 (amended).  For every document and logical name,
    [markAssetAsDeleted] fails with an error and leaves the records as
    they are when no record of that document and name exists; when one
    exists it succeeds, whether or not a [deletedAt] is already set: the
    newest record [r] (maximum [v]) of that document and name gets
    [deletedAt] set to the document's current version, in place, and the
    promise resolves with [r] as it was. *)
Theorem markAssetAsDeleted_marks_newest :
  ((forall x, In x assets ->
              ~ (webstrateId x = wid /\ originalFileName x = name)) ->
   markAssetAsDeleted vs assets wid name
   = (assets, JS.Rejected (JS.Err "Update failed"))) /\
  (forall x, In x assets -> webstrateId x = wid -> originalFileName x = name ->
   exists r before after,
     currentRecord assets wid name None r /\
     assets = before ++ r :: after /\
     markAssetAsDeleted vs assets wid name
     = (before ++ set_deletedAt (Some (vs wid)) r :: after, JS.Resolved r)).
Proof.
  unfold markAssetAsDeleted, Mongo.findOneAndUpdate. split.
  - intros Hnone.
    destruct (Mongo.findOneSorted v (byName wid name) assets) as [r|] eqn:E;
      [|reflexivity].
    apply findOneSorted_some in E. destruct E as (Hin & Hq & _).
    apply byName_true in Hq. destruct (Hnone r Hin Hq).
  - intros x Hx Hw Hn.
    destruct (findOneSorted_found v (byName wid name) assets x Hx) as [r Hr].
    { apply byName_true. now split. }
    rewrite Hr. apply findOneSorted_some in Hr.
    destruct Hr as (Hin & Hq & Hmax). apply byName_true in Hq.
    destruct Hq as [Hrw Hrn].
    destruct (updateOne_in (set_deletedAt (Some (vs wid))) assets r Hin)
      as (before & after & Hsplit & Hupd).
    exists r, before, after. rewrite Hupd. repeat split; trivial.
    intros y Hy Hyw Hyn _. apply Hmax; trivial. apply byName_true. now split.
Qed.

End MarkAssetAsDeleted.

(** Witness for C4: a.png of document D, marked while D is at version 5. *)
Lemma markAssetAsDeleted_marks_newest_witness :
  exists r before after,
    currentRecord Sample.storeD "D" "a.png" None r /\
    Sample.storeD = before ++ r :: after /\
    markAssetAsDeleted (fun _ => 5) Sample.storeD "D" "a.png"
    = (before ++ set_deletedAt (Some 5) r :: after, JS.Resolved r).
Proof.
  apply (proj2 (markAssetAsDeleted_marks_newest (fun _ => 5) Sample.storeD
                  "D" "a.png") Sample.a_v1).
  - simpl. tauto.
  - reflexivity.
  - reflexivity.
Defined.

(** Counterexample to C4 as stated: b.csv of document D already has
    [deletedAt = 2]; marking it again while D is at version 5 succeeds and
    overwrites the marker. *)
Lemma markAssetAsDeleted_again_counterexample :
  deletedAt Sample.b_csv = Some 2 /\
  markAssetAsDeleted (fun _ => 5) Sample.storeD "D" "b.csv"
  = ([Sample.a_v1; Sample.a_v3; set_deletedAt (Some 5) Sample.b_csv],
     JS.Resolved Sample.b_csv).
Proof. split; reflexivity. Qed.

(** * Copy and restore *)

Lemma resolvedAt_current assets wid version r :
  In r (resolvedAt assets wid version) ->
  currentRecord assets wid (originalFileName r) (Some version) r.
Proof.
  unfold resolvedAt, Mongo.find. intros H.
  apply filterNewestAssets_newestOf in H. destruct H as [Hin Hmax].
  apply filter_In in Hin. destruct Hin as [Hin Hq].
  apply byVersion_true in Hq. destruct Hq as [Hw Hv].
  repeat split; trivial.
  intros x Hx Hxw Hxn Hxv. apply Hmax; trivial.
  apply filter_In. split; trivial. apply byVersion_true. now split.
Qed.

(** Every name of the document within the version that the prototype
    does not shadow is represented in what the resolver keeps. *)
Lemma resolvedAt_covers assets wid version x :
  In x assets -> webstrateId x = wid -> v x <= version ->
  JsObject.inherited (originalFileName x) = false ->
  exists r, In r (resolvedAt assets wid version) /\
            originalFileName r = originalFileName x.
Proof.
  intros Hx Hw Hv Hinh. unfold resolvedAt, Mongo.find.
  apply filterNewestAssets_covers; trivial.
  apply filter_In. split; trivial. apply byVersion_true. now split.
Qed.

Lemma resolvedAt_NoDup assets wid version :
  NoDup (map originalFileName (resolvedAt assets wid version)).
Proof. apply filterNewestAssets_NoDup. Qed.

(** When no record in range bears a name of [Object.prototype], what the
    code resolves is a resolved-current set of the specification. *)
Lemma resolvedAt_resolvedCurrent assets wid version :
  plainNames assets wid version ->
  resolvedCurrent assets wid version (resolvedAt assets wid version).
Proof.
  intros Hplain. split; [apply resolvedAt_NoDup|]. split.
  - intros r Hr. now apply resolvedAt_current.
  - intros a Ha Hw Hv.
    destruct (resolvedAt_covers assets wid version a Ha Hw Hv
                (Hplain a Ha Hw Hv)) as (r & Hr & <-).
    now apply in_map.
Qed.

Lemma insertManyNext_fresh (ds : list Asset) (d : Db) :
  ds <> [] -> (forall x, In x ds -> _id x = None) ->
  insertManyNext ds d
  = (mkDb (docs d ++ withIds (nextId d) ds) (nextId d + List.length ds)%nat,
     JS.CbOk tt).
Proof.
  intros Hne Hnone. destruct ds as [|x r]; [contradiction|].
  unfold insertManyNext. now rewrite insertMany_fresh.
Qed.

Lemma copyAssets_docs (d : Db) (fromWebstrateId toWebstrateId : string)
      (version : Z) :
  docs (fst (copyAssets d fromWebstrateId toWebstrateId version))
  = docs d
    ++ withIds (nextId d)
               (map (copyOf toWebstrateId)
                    (resolvedAt (docs d) fromWebstrateId version)).
Proof.
  unfold copyAssets. fold (resolvedAt (docs d) fromWebstrateId version).
  destruct (resolvedAt (docs d) fromWebstrateId version) as [|r rest];
    simpl (_ =? _)%nat; cbv iota.
  - simpl. now rewrite app_nil_r.
  - rewrite insertManyNext_fresh; [reflexivity | discriminate |].
    intros x Hx. apply in_map_iff in Hx. now destruct Hx as (y & <- & _).
Qed.

Section CopyRestore.

Variable getVersionFromTag : string -> option string -> JS.Callback (option Z).

(** One call of [restoreAssets] with a version: the store afterwards, and
    what the callback receives in each of the three cases. *)
Lemma restoreAssets_docs (fuel : nat) (d : Db) (wid : string) (version : Z)
      (tag : option string) (newVersion : Z) :
  version <> 0 ->
  exists d' answer,
    restoreAssets getVersionFromTag (S fuel) d wid (Some version) tag newVersion
    = Some (d', answer) /\
    docs d'
    = docs d
      ++ withIds (nextId d)
                 (map (fun s => set_v newVersion (without_id s))
                      (resolvedAt (docs d) wid version)) /\
    (resolvedAt (docs d) wid version = [] -> d' = d) /\
    (Mongo.find (byVersion wid (Some version)) (docs d) = [] ->
     answer = JS.CbOk tt) /\
    (resolvedAt (docs d) wid version <> [] -> answer = JS.CbOk tt) /\
    (Mongo.find (byVersion wid (Some version)) (docs d) <> [] ->
     resolvedAt (docs d) wid version = [] ->
     answer = JS.CbErr noOperations).
Proof.
  intros Hv. simpl. unfold JS.truthy.
  destruct (Z.eqb_spec version 0) as [->|_]; [congruence|]. simpl.
  unfold resolvedAt.
  set (found := Mongo.find (byVersion wid (Some version)) (docs d)).
  destruct (List.length (map without_id found) =? 0)%nat eqn:El.
  - apply Nat.eqb_eq in El. rewrite length_map in El.
    apply length_zero_iff_nil in El. rewrite El.
    exists d, (JS.CbOk tt). simpl. rewrite app_nil_r.
    split; [reflexivity|]. split; [reflexivity|]. split; [trivial|].
    split; [trivial|]. split; [trivial|]. intros H. now contradiction H.
  - assert (Hfound : found <> []).
    { intros E. rewrite E in El. discriminate. }
    rewrite (filterNewestAssets_map without_id
               (fun _ => eq_refl) (fun _ => eq_refl)).
    rewrite map_map.
    destruct (filterNewestAssets found) as [|r rest] eqn:Er.
    + exists d, (JS.CbErr noOperations). simpl. rewrite app_nil_r.
      split; [reflexivity|]. split; [reflexivity|]. split; [trivial|].
      split; [intros E; now contradiction Hfound|].
      split; [intros H; now contradiction H | trivial].
    + rewrite insertManyNext_fresh.
      2:{ discriminate. }
      2:{ intros x Hx. apply in_map_iff in Hx.
          now destruct Hx as (s & <- & _). }
      eexists _, _. split; [reflexivity|]. cbn [docs].
      split; [reflexivity|]. split; [discriminate|].
      split; [intros E; now contradiction Hfound|].
      split; [trivial | discriminate].
Qed.

(** C3 (amended).  For every source document, target document and version
    such that no record of the source at or below the version bears a name
    that [Object.prototype] defines, the records [copyAssets] inserts are,
    one for one and in order, clones of a resolved-current set of the source
    at that version, records already soft-deleted included: each clone has
    [v = 0], [webstrateId] equal to the target, the same [fileName] storage
    key, name, fingerprint and [deletedAt] as its source, and [_originalId]
    equal to the source's [_originalId] if present, otherwise to the
    source's own [_id]. *)
Theorem copyAssets_clones_resolved (d : Db)
        (fromWebstrateId toWebstrateId : string) (version : Z) :
  plainNames (docs d) fromWebstrateId version ->
  exists resolved inserted,
    resolvedCurrent (docs d) fromWebstrateId version resolved /\
    docs (fst (copyAssets d fromWebstrateId toWebstrateId version))
    = docs d ++ inserted /\
    Forall2 (copiedFrom toWebstrateId) resolved inserted.
Proof.
  intros Hplain.
  exists (resolvedAt (docs d) fromWebstrateId version),
         (withIds (nextId d)
                  (map (copyOf toWebstrateId)
                       (resolvedAt (docs d) fromWebstrateId version))).
  split; [now apply resolvedAt_resolvedCurrent|].
  split; [apply copyAssets_docs|].
  apply withIds_Forall2. intros src i _.
  unfold copiedFrom, sameContent, copyOf, JS.or_else. simpl.
  repeat split. now destruct (_originalId src).
Qed.

(** C7 (amended).  For every document, version other than 0 and new
    version such that no record of the document at or below the version
    bears a name that [Object.prototype] defines, [restoreAssets] (given
    fuel for one call) calls back without error after inserting, one for
    one and in order, a clone of each record of a resolved-current set at
    the version: each clone has [v] equal to the new version and the same
    document, storage key, name, fingerprint, [_originalId] and [deletedAt]
    as its source; when the resolved set is empty the store is left as it
    is. *)
Theorem restoreAssets_clones_resolved (fuel : nat) (d : Db) (wid : string)
        (version : Z) (tag : option string) (newVersion : Z) :
  version <> 0 ->
  plainNames (docs d) wid version ->
  exists d' resolved inserted,
    restoreAssets getVersionFromTag (S fuel) d wid (Some version) tag newVersion
    = Some (d', JS.CbOk tt) /\
    resolvedCurrent (docs d) wid version resolved /\
    docs d' = docs d ++ inserted /\
    Forall2 (restoredFrom newVersion) resolved inserted /\
    (resolved = [] -> d' = d).
Proof.
  intros Hv Hplain.
  destruct (restoreAssets_docs fuel d wid version tag newVersion Hv)
    as (d' & answer & E & Hdocs & Hsame & Hnone & Hsome & _).
  assert (Hanswer : answer = JS.CbOk tt).
  { destruct (Mongo.find (byVersion wid (Some version)) (docs d))
      as [|x found] eqn:Ef.
    - now apply Hnone.
    - apply Hsome.
      assert (Hx : In x (Mongo.find (byVersion wid (Some version)) (docs d)))
        by (rewrite Ef; now left).
      apply filter_In in Hx. destruct Hx as [Hx Hq].
      apply byVersion_true in Hq. destruct Hq as [Hw Hle].
      destruct (resolvedAt_covers (docs d) wid version x Hx Hw Hle
                  (Hplain x Hx Hw Hle)) as (r & Hr & _).
      intros Hnil. rewrite Hnil in Hr. contradiction. }
  subst answer.
  exists d', (resolvedAt (docs d) wid version),
         (withIds (nextId d)
                  (map (fun s => set_v newVersion (without_id s))
                       (resolvedAt (docs d) wid version))).
  split; [exact E|].
  split; [now apply resolvedAt_resolvedCurrent|].
  split; [exact Hdocs|].
  split; [|exact Hsame].
  apply withIds_Forall2. intros src i _.
  unfold restoredFrom, sameContent. simpl. repeat split.
Qed.

End CopyRestore.

(** Witness for C3: document D copied at version 5 into document Q. *)
Lemma copyAssets_clones_resolved_witness :
  plainNames (docs Sample.dbD) "D" 5 /\
  exists resolved inserted,
    resolvedCurrent (docs Sample.dbD) "D" 5 resolved /\
    docs (fst (copyAssets Sample.dbD "D" "Q" 5))
    = docs Sample.dbD ++ inserted /\
    Forall2 (copiedFrom "Q") resolved inserted.
Proof.
  assert (H : plainNames (docs Sample.dbD) "D" 5)
    by (intros a [<-|[<-|[<-|[]]]] _ _; reflexivity).
  split; [exact H|].
  exact (copyAssets_clones_resolved Sample.dbD "D" "Q" 5 H).
Defined.

(** Counterexample to C3 as stated: b.csv of document D was soft-deleted
    at version 2, so at version 5 the resolved-current set without the
    soft-deleted records holds a.png only; [copyAssets] inserts a clone
    of b.csv as well, with its [deletedAt]. *)
Lemma copyAssets_copies_deleted_counterexample :
  resolvedCurrent Sample.storeD "D" 5 [Sample.a_v3; Sample.b_csv] /\
  deletedAt Sample.b_csv = Some 2 /\ 2 <= 5 /\
  docs (fst (copyAssets Sample.dbD "D" "Q" 5))
  = Sample.storeD
    ++ [ mkAsset (Some 8%nat) (Some 2%nat) "Q" 0 "f2" "a.png" 3 "image/png"
                 (Some "900150983cd24fb0d6963f7d28e17f72") None;
         mkAsset (Some 9%nat) (Some 3%nat) "Q" 0 "f3" "b.csv" 3 "image/png"
                 (Some "900150983cd24fb0d6963f7d28e17f72") (Some 2) ].
Proof.
  split; [|repeat split; try reflexivity; lia].
  change [Sample.a_v3; Sample.b_csv] with (resolvedAt Sample.storeD "D" 5).
  apply resolvedAt_resolvedCurrent.
  intros a [<-|[<-|[<-|[]]]] _ _; reflexivity.
Qed.

(** Witness for C7: document D restored from version 1 as version 7. *)
Lemma restoreAssets_clones_resolved_witness :
  1 <> 0 /\ plainNames (docs Sample.dbD) "D" 1 /\
  exists d' resolved inserted,
    restoreAssets Sample.getVersionFromTag 1 Sample.dbD "D"
                  (Some 1) None 7
    = Some (d', JS.CbOk tt) /\
    resolvedCurrent (docs Sample.dbD) "D" 1 resolved /\
    docs d' = docs Sample.dbD ++ inserted /\
    Forall2 (restoredFrom 7) resolved inserted /\
    (resolved = [] -> d' = Sample.dbD).
Proof.
  assert (H : plainNames (docs Sample.dbD) "D" 1)
    by (intros a [<-|[<-|[<-|[]]]] _ _; reflexivity).
  assert (H1 : 1 <> 0) by lia.
  split; [exact H1|]. split; [exact H|].
  exact (restoreAssets_clones_resolved Sample.getVersionFromTag 0
           Sample.dbD "D" 1 None 7 H1 H).
Defined.

(** Counterexample to C7 as stated: document P has c.png and z.txt at
    version 0, so its resolved-current set at version 0 is not empty; asked
    to restore from version 0 (no tag), [restoreAssets] takes the version
    for missing, asks for the tag's version and, that lookup failing,
    inserts nothing. *)
Lemma restoreAssets_version_zero_counterexample :
  resolvedCurrent Sample.storeP "P" 0 [Sample.c_v0; Sample.z_v0] /\
  restoreAssets Sample.getVersionFromTag 3 Sample.dbP "P" (Some 0) None 7
  = Some (Sample.dbP, JS.CbErr (JS.Err "tag not found")).
Proof.
  split; [|reflexivity].
  change [Sample.c_v0; Sample.z_v0] with (resolvedAt Sample.storeP "P" 0).
  apply resolvedAt_resolvedCurrent.
  intros a [<-|[<-|[<-|[]]]] _ _; reflexivity.
Qed.

(** * Bulk deletion *)

Section DeleteAssets.

Variable deleteSearchable : option ObjectId -> bool.
Variable unlinkFails : string -> bool.

Lemma unlink_keeps_other (files : Fs) (key fileName : string) :
  In key files -> key <> fileName -> In key (unlink unlinkFails files fileName).
Proof.
  intros Hin Hne. unfold unlink. destruct (unlinkFails fileName); trivial.
  apply filter_In. split; trivial.
  destruct (String.eqb_spec key fileName); [contradiction | reflexivity].
Qed.

Lemma unlink_all_keeps_others (toDelete : list string) : forall files key,
  In key files -> ~ In key toDelete ->
  In key (fold_left (unlink unlinkFails) toDelete files).
Proof.
  induction toDelete as [|k rest IH]; intros files key Hin Hnot; simpl.
  - assumption.
  - apply IH.
    + apply unlink_keeps_other; trivial. intros ->. apply Hnot. now left.
    + intros H. apply Hnot. now right.
Qed.

(** C5 (amended).  For every document, whatever unlinks fail: a blob
    present before [deleteAssets] whose storage key is referenced by a
    record of another document is still present afterwards; and, the search
    index's deletions resolving, the records left in the store are exactly
    the records of the other documents, so that all of the document's
    records are removed whether or not blob deletions failed. *)
Theorem deleteAssets_spares_shared_blobs (d : Db) (files : Fs) (wid : string) :
  (forall key, In key files ->
     (exists r, In r (docs d) /\ fileName r = key /\ webstrateId r <> wid) ->
     In key (snd (fst (deleteAssets deleteSearchable unlinkFails d files wid))))
  /\
  (deleteSearchable None = true ->
   docs (fst (fst (deleteAssets deleteSearchable unlinkFails d files wid)))
   = filter (fun a => negb (webstrateId a =? wid)%string) (docs d)).
Proof.
  unfold deleteAssets.
  set (assets := map fileName (Mongo.find _ (docs d))).
  set (assetsBeingUsed := Mongo.distinct fileName _ (docs d)).
  set (assetsToBeDeleted := filter _ assets).
  split.
  - intros key Hkey (r & Hr & Hname & Hother).
    assert (Hkept : In key (fold_left (unlink unlinkFails) assetsToBeDeleted
                                      files)).
    { apply unlink_all_keeps_others; trivial.
      unfold assetsToBeDeleted. rewrite filter_In. intros [Hin Hused].
      apply negb_true_iff in Hused.
      assert (Hu : includes assetsBeingUsed key = true); [|congruence].
      apply includes_In. unfold assetsBeingUsed, Mongo.distinct.
      apply nodup_In, in_map_iff. exists r. split; trivial.
      apply filter_In. split; trivial.
      rewrite Hname. apply andb_true_intro. split.
      - now apply includes_In.
      - apply negb_true_iff. now apply String.eqb_neq. }
    now destruct (forallb _ assetsToBeDeleted).
  - intros Hresolves.
    replace (forallb (fun _ => deleteSearchable None) assetsToBeDeleted)
      with true; [reflexivity|].
    symmetry. apply forallb_forall. intros _ _. assumption.
Qed.

End DeleteAssets.

(** Witness for C5: document D is deleted while document E still refers to
    the blob f1, once with working unlinks and once with every unlink
    failing. *)
Lemma deleteAssets_spares_shared_blobs_witness :
  (In "f1" (snd (fst (deleteAssets Sample.deleteSearchable Sample.unlinkWorks
                                   Sample.dbDE Sample.blobs "D"))) /\
   docs (fst (fst (deleteAssets Sample.deleteSearchable Sample.unlinkWorks
                                Sample.dbDE Sample.blobs "D")))
   = [Sample.e_v1]) /\
  docs (fst (fst (deleteAssets Sample.deleteSearchable
                               Sample.unlinkAlwaysFails
                               Sample.dbDE Sample.blobs "D")))
  = [Sample.e_v1].
Proof.
  split; [split|].
  - apply (proj1 (deleteAssets_spares_shared_blobs Sample.deleteSearchable
                    Sample.unlinkWorks Sample.dbDE Sample.blobs "D")).
    + simpl. tauto.
    + exists Sample.e_v1. repeat split; simpl; try tauto. discriminate.
  - apply (proj2 (deleteAssets_spares_shared_blobs Sample.deleteSearchable
                    Sample.unlinkWorks Sample.dbDE Sample.blobs "D")).
    reflexivity.
  - apply (proj2 (deleteAssets_spares_shared_blobs Sample.deleteSearchable
                    Sample.unlinkAlwaysFails Sample.dbDE Sample.blobs "D")).
    reflexivity.
Defined.

(** Counterexample to C5 as stated: document D is deleted while the search
    index's deletions never settle.  The unshared blobs f2 and f3 are
    unlinked, but [Promise.all] stays pending, [deleteMany] is never
    reached, every record of D stays in the store and the callback is not
    called. *)
Lemma deleteAssets_pending_index_counterexample :
  deleteAssets SampleMore.indexNeverSettles Sample.unlinkWorks
               Sample.dbDE Sample.blobs "D"
  = (Sample.dbDE, ["f1"], JS.NotCalled) /\
  In Sample.a_v1 (docs Sample.dbDE) /\ webstrateId Sample.a_v1 = "D".
Proof. repeat split; try reflexivity. now left. Qed.

(** * Upload admission *)

Lemma promiseAll_resolved {A : Type} (promises : list (JS.Callback A)) :
  Forall (fun p => exists record, p = JS.CbOk record) promises ->
  exists assetRecords,
    promises = map JS.CbOk assetRecords /\
    JS.promiseAll promises = JS.CbOk assetRecords.
Proof.
  induction 1 as [|p rest (record & ->) _ (records & -> & IH)].
  - now exists [].
  - exists (record :: records). simpl. now rewrite IH.
Qed.

Lemma duplicate_query (asset : Multer.File) (r : Asset) :
  (fileSize r =? Multer.size asset)
  && option_eqb String.eqb (fileHash r) (Multer.fileHash asset) = true
  <-> duplicateOf asset r.
Proof.
  unfold duplicateOf. now rewrite andb_true_iff, Z.eqb_eq, option_eqb_string.
Qed.

Lemma findDuplicateAsset_some assets asset r :
  findDuplicateAsset assets asset = Some r -> In r assets /\ duplicateOf asset r.
Proof.
  unfold findDuplicateAsset, Mongo.findOne. intros H.
  apply find_some in H. destruct H as [Hin Hq].
  split; [assumption | now apply duplicate_query].
Qed.

Lemma findDuplicateAsset_none assets asset :
  findDuplicateAsset assets asset = None ->
  forall r, In r assets -> ~ duplicateOf asset r.
Proof.
  unfold findDuplicateAsset, Mongo.findOne. intros H r Hr Hdup.
  apply (find_none _ _ H) in Hr. apply duplicate_query in Hdup. congruence.
Qed.

Lemma findDuplicateAsset_found assets asset :
  (exists r, findDuplicateAsset assets asset = Some r) <->
  (exists r, In r assets /\ duplicateOf asset r).
Proof.
  split.
  - intros [r Hr]. exists r. now apply findDuplicateAsset_some.
  - intros (r & Hin & Hdup).
    destruct (findDuplicateAsset assets asset) as [r'|] eqn:E.
    + now exists r'.
    + destruct (findDuplicateAsset_none _ _ E r Hin Hdup).
Qed.

Lemma findDuplicateAsset_same_content assets f g :
  Multer.size f = Multer.size g -> Multer.fileHash f = Multer.fileHash g ->
  findDuplicateAsset assets f = findDuplicateAsset assets g.
Proof.
  unfold findDuplicateAsset. now intros -> ->.
Qed.

Lemma findDuplicateAsset_app assets asset r :
  findDuplicateAsset (assets ++ [r]) asset
  = match findDuplicateAsset assets asset with
    | Some duplicate => Some duplicate
    | None => findDuplicateAsset [r] asset
    end.
Proof.
  unfold findDuplicateAsset, Mongo.findOne.
  induction assets as [|a rest IH]; simpl; [reflexivity|].
  destruct ((fileSize a =? Multer.size asset)
            && option_eqb String.eqb (fileHash a) (Multer.fileHash asset));
    [reflexivity | apply IH].
Qed.

Section Upload.

Variable md5File : list Byte.byte -> string.
Variable UPLOAD_DEST : string.
Variable sendNoOp : string -> string -> Versions -> Versions.
Variable makeSearchable : option ObjectId -> string -> bool.
Variable unlinkFails : string -> bool.
Variable insertError : Asset -> option JS.Error.

Lemma addEach_length (assets : list Multer.File) :
  forall w wid searchables source,
  List.length (snd (addEach UPLOAD_DEST sendNoOp makeSearchable insertError
                            w wid assets searchables source))
  = List.length assets.
Proof.
  induction assets as [|a rest IH]; intros w wid searchables source; simpl.
  - reflexivity.
  - destruct (addAsset _ _ _ _ w wid a _ source) as [w1 r].
    specialize (IH w1 wid searchables source).
    destruct (addEach _ _ _ _ w1 wid rest searchables source) as [w2 rs].
    simpl in *. now rewrite IH.
Qed.

(** C10.  When every admission [addAssets] starts calls back with a record
    ([assetRecords] being those records, in order): if the list of assets
    has exactly one element, the callback receives that single record
    itself; for every other length it receives the list of records. *)
Theorem addAssets_one_record_or_list (w : World) (wid : string)
        (assets : list Multer.File) (searchables : list string)
        (source : string) :
  Forall (fun p => exists record, p = JS.CbOk record)
         (snd (addEach UPLOAD_DEST sendNoOp makeSearchable insertError
                       w wid assets searchables source)) ->
  exists assetRecords,
    snd (addEach UPLOAD_DEST sendNoOp makeSearchable insertError
                 w wid assets searchables source)
    = map JS.CbOk assetRecords /\
    (List.length assets = 1%nat ->
     exists record,
       assetRecords = [record] /\
       snd (addAssets UPLOAD_DEST sendNoOp makeSearchable insertError
                      w wid assets searchables source)
       = JS.CbOk (One record)) /\
    (List.length assets <> 1%nat ->
     snd (addAssets UPLOAD_DEST sendNoOp makeSearchable insertError
                    w wid assets searchables source)
     = JS.CbOk (Many assetRecords)).
Proof.
  intros Hall.
  pose proof (addEach_length assets w wid searchables source) as Hlen.
  unfold addAssets.
  destruct (addEach _ _ _ _ w wid assets searchables source)
    as [w' promises]. simpl in *.
  destruct (promiseAll_resolved promises Hall) as (assetRecords & -> & Hp).
  exists assetRecords. split; [reflexivity|]. rewrite Hp.
  rewrite length_map in Hlen. rewrite <- Hlen. simpl. split.
  - intros H1. destruct assetRecords as [|record [|? ?]]; try discriminate.
    now exists record.
  - intros Hn. destruct assetRecords as [|record [|? ?]]; try reflexivity.
    now destruct Hn.
Qed.

Hypothesis insert_accepts : forall doc, insertError doc = None.

(** A request with a single file adds one record, filed under the storage
    key the duplicate pass settled on. *)
Lemma upload_one (w : World) (req : Request) (file : Multer.File) :
  req_files req = Some [file] ->
  exists r,
    docs (db (fst (assetUploadHandler md5File UPLOAD_DEST sendNoOp
                     makeSearchable unlinkFails insertError w None req)))
    = docs (db w) ++ [r] /\
    originalFileName r = Multer.originalname file /\
    fileSize r = Multer.size file /\
    fileHash r = Some (md5File (Multer.content file)) /\
    fileName r
    = storageKey (docs (db w))
        (Multer.set_fileHash (Some (md5File (Multer.content file))) file).
Proof.
  intros Hfiles. unfold assetUploadHandler, storageKey. rewrite Hfiles.
  cbn [map reuseDuplicates].
  set (hashed := Multer.set_fileHash _ file).
  destruct (findDuplicateAsset (docs (db w)) hashed) as [duplicate|].
  - unfold addAssets. cbn [addEach]. unfold addAsset.
    rewrite insert_accepts. cbn [insertOne Multer.filename _id].
    match goal with
    | |- context [if ?c then _ else _] => destruct c
    end; simpl; eexists; (split; [reflexivity|]); simpl; auto.
  - unfold addAssets. cbn [addEach]. unfold addAsset.
    rewrite insert_accepts. cbn [insertOne Multer.filename _id].
    match goal with
    | |- context [if ?c then _ else _] => destruct c
    end; simpl; eexists; (split; [reflexivity|]); simpl; auto.
Qed.

End Upload.

Section Deduplication.

Variable md5File : list Byte.byte -> string.
Variable UPLOAD_DEST : string.
Variable sendNoOp : string -> string -> Versions -> Versions.
Variable makeSearchable : option ObjectId -> string -> bool.
Variable unlinkFails : string -> bool.
Variable insertError : Asset -> option JS.Error.

(** C8 (amended).  The duplicate finder finds a record exactly when some
    existing record, of whatever document, agrees with the file on both
    [fileSize] and [fileHash], and the record it finds is such a record;
    so, the record store accepting the writes, uploading a file and then,
    in a later request, a file with identical bytes under another logical
    name adds two records that share one storage key. *)
Theorem identical_uploads_share_storage_key (w : World) (req1 req2 : Request)
        (file1 file2 : Multer.File) :
  (forall doc, insertError doc = None) ->
  req_files req1 = Some [file1] ->
  req_files req2 = Some [file2] ->
  Multer.content file1 = Multer.content file2 ->
  Multer.size file1 = Multer.size file2 ->
  (forall assets asset,
     ((exists r, findDuplicateAsset assets asset = Some r) <->
      (exists r, In r assets /\ duplicateOf asset r)) /\
     (forall r, findDuplicateAsset assets asset = Some r ->
                In r assets /\ duplicateOf asset r)) /\
  let w1 := fst (assetUploadHandler md5File UPLOAD_DEST sendNoOp
                   makeSearchable unlinkFails insertError w None req1) in
  let w2 := fst (assetUploadHandler md5File UPLOAD_DEST sendNoOp
                   makeSearchable unlinkFails insertError w1 None req2) in
  exists r1 r2,
    docs (db w2) = docs (db w) ++ [r1; r2] /\
    originalFileName r1 = Multer.originalname file1 /\
    originalFileName r2 = Multer.originalname file2 /\
    fileName r1 = fileName r2.
Proof.
  intros Haccept Hreq1 Hreq2 Hbytes Hsize. split.
  - intros assets asset. split.
    + apply findDuplicateAsset_found.
    + intros r. apply findDuplicateAsset_some.
  - intros w1 w2.
    destruct (upload_one md5File UPLOAD_DEST sendNoOp makeSearchable
                unlinkFails insertError Haccept w req1 file1 Hreq1)
      as (r1 & Hdocs1 & Hname1 & Hsize1 & Hhash1 & Hkey1).
    destruct (upload_one md5File UPLOAD_DEST sendNoOp makeSearchable
                unlinkFails insertError Haccept w1 req2 file2 Hreq2)
      as (r2 & Hdocs2 & Hname2 & _ & _ & Hkey2).
    fold w1 in Hdocs1. fold w2 in Hdocs2.
    exists r1, r2. rewrite Hdocs2, Hdocs1, <- app_assoc.
    repeat split; trivial.
    rewrite Hkey2, Hkey1, Hdocs1. unfold storageKey.
    rewrite findDuplicateAsset_app.
    rewrite (findDuplicateAsset_same_content (docs (db w))
               (Multer.set_fileHash (Some (md5File (Multer.content file2)))
                                    file2)
               (Multer.set_fileHash (Some (md5File (Multer.content file1)))
                                    file1))
      by (simpl; congruence).
    destruct (findDuplicateAsset (docs (db w)) _) as [duplicate|] eqn:E.
    + reflexivity.
    + assert (Hdup : duplicateOf
                       (Multer.set_fileHash
                          (Some (md5File (Multer.content file2))) file2) r1).
      { split; simpl; congruence. }
      apply duplicate_query in Hdup.
      unfold findDuplicateAsset at 1, Mongo.findOne. cbn [List.find].
      rewrite Hdup, Hkey1. unfold storageKey. now rewrite E.
Qed.

End Deduplication.

(** Witness for C10: one file admitted into the empty store. *)
Lemma addAssets_one_record_or_list_witness :
  exists assetRecords,
    snd (addEach "/srv/webstrates/uploads/" Sample.sendNoOp
                 Sample.makeSearchable Sample.insertError
                 Sample.emptyWorld "D" [Sample.upload1] [] "user")
    = map JS.CbOk assetRecords /\
    (List.length [Sample.upload1] = 1%nat ->
     exists record,
       assetRecords = [record] /\
       snd (addAssets "/srv/webstrates/uploads/" Sample.sendNoOp
                      Sample.makeSearchable Sample.insertError
                      Sample.emptyWorld "D" [Sample.upload1] [] "user")
       = JS.CbOk (One record)) /\
    (List.length [Sample.upload1] <> 1%nat ->
     snd (addAssets "/srv/webstrates/uploads/" Sample.sendNoOp
                    Sample.makeSearchable Sample.insertError
                    Sample.emptyWorld "D" [Sample.upload1] [] "user")
     = JS.CbOk (Many assetRecords)).
Proof.
  apply (addAssets_one_record_or_list "/srv/webstrates/uploads/"
           Sample.sendNoOp Sample.makeSearchable Sample.insertError
           Sample.emptyWorld "D" [Sample.upload1] [] "user").
  repeat constructor. eexists. reflexivity.
Defined.

(** Witness for C8: the two sample files, uploaded one request after the
    other into the empty store. *)
Lemma identical_uploads_share_storage_key_witness :
  let w1 := fst (Sample.uploadHandler Sample.emptyWorld None
                                      (Sample.request [Sample.upload1])) in
  let w2 := fst (Sample.uploadHandler w1 None
                                      (Sample.request [Sample.upload2])) in
  exists r1 r2,
    docs (db w2) = docs (db Sample.emptyWorld) ++ [r1; r2] /\
    originalFileName r1 = Multer.originalname Sample.upload1 /\
    originalFileName r2 = Multer.originalname Sample.upload2 /\
    fileName r1 = fileName r2.
Proof.
  apply (proj2 (identical_uploads_share_storage_key
                  Sample.md5File "/srv/webstrates/uploads/" Sample.sendNoOp
                  Sample.makeSearchable Sample.unlinkWorks Sample.insertError
                  Sample.emptyWorld (Sample.request [Sample.upload1])
                  (Sample.request [Sample.upload2])
                  Sample.upload1 Sample.upload2
                  (fun _ => eq_refl) eq_refl eq_refl eq_refl eq_refl)).
Defined.

(** Counterexample to C8 as stated: the two sample files have identical
    bytes and different names; uploaded in one request into the empty
    store, each is looked up before either is recorded, and the two
    records keep the storage keys k1 and k2. *)
Lemma identical_uploads_one_request_counterexample :
  Multer.content Sample.upload1 = Multer.content Sample.upload2 /\
  Multer.size Sample.upload1 = Multer.size Sample.upload2 /\
  Multer.originalname Sample.upload1 <> Multer.originalname Sample.upload2 /\
  map (fun r => (originalFileName r, fileName r))
      (docs (db (fst (Sample.uploadHandler
                        Sample.emptyWorld None
                        (Sample.request [Sample.upload1; Sample.upload2])))))
  = [("one.png", "k1"); ("two.png", "k2")].
Proof. repeat split; try reflexivity. discriminate. Qed.

(** * More on the version resolver *)

Lemma firstNewestOf_newestOf assets a :
  firstNewestOf assets a -> newestOf assets a.
Proof.
  intros (before & after & -> & Hb & Ha). split.
  - apply in_or_app. right. now left.
  - intros b Hin Hn. apply in_app_or in Hin.
    destruct Hin as [Hin | [<- | Hin]].
    + specialize (Hb b Hin Hn). lia.
    + lia.
    + now apply Ha.
Qed.

Lemma firstNewestOf_snoc assets a b :
  firstNewestOf assets a ->
  (originalFileName b = originalFileName a -> v b <= v a) ->
  firstNewestOf (assets ++ [b]) a.
Proof.
  intros (before & after & -> & Hb & Ha) Hle.
  exists before, (after ++ [b]). rewrite <- app_assoc. split; [reflexivity|].
  split; [assumption|].
  intros c Hc Hn. apply in_app_or in Hc. destruct Hc as [Hc | [<- | []]].
  - now apply Ha.
  - now apply Hle.
Qed.

Lemma firstNewestOf_last assets b :
  (forall c, In c assets -> originalFileName c = originalFileName b ->
             v c < v b) ->
  firstNewestOf (assets ++ [b]) b.
Proof.
  intros Hlt. exists assets, []. repeat split; trivial. intros c [].
Qed.

Lemma resolvesFirst_empty : resolvesFirst [] JsObject.empty.
Proof. split; [intros k a H; discriminate | intros k []]. Qed.

Lemma resolvesFirst_keepNewest seen o a :
  resolves seen o -> resolvesFirst seen o ->
  resolvesFirst (seen ++ [a]) (keepNewest o a).
Proof.
  intros (Hnd & Hown & Hall) (Hfirst & Hkeys). unfold keepNewest, JsObject.get.
  destruct (JsObject.getOwn o (originalFileName a)) as [kept|] eqn:Eg.
  - destruct (Hown _ _ Eg) as [Hname [_ Hmax]].
    pose proof (getOwn_some_key _ _ _ Eg) as Hkey.
    destruct (v kept <? v a) eqn:Elt.
    + apply Z.ltb_lt in Elt. split.
      * intros k b. rewrite getOwn_set.
        destruct (String.eqb_spec (originalFileName a) k) as [<-|Hne].
        -- intros [= <-]. apply firstNewestOf_last. intros c Hc Hn.
           assert (v c <= v kept) by (apply Hmax; congruence). lia.
        -- intros Hb. apply firstNewestOf_snoc; [now apply Hfirst with k|].
           destruct (Hown _ _ Hb) as [Hnb _]. congruence.
      * intros k. rewrite keys_set_own by assumption. apply Hkeys.
    + apply Z.ltb_ge in Elt. split; [|assumption].
      intros k b Hb. apply firstNewestOf_snoc; [now apply Hfirst with k|].
      destruct (Hown _ _ Hb) as [Hnb _]. intros Heq.
      assert (b = kept) by congruence. now subst b.
  - pose proof (proj1 (getOwn_none _ _) Eg) as Hfresh.
    assert (Hothers : forall k b, JsObject.getOwn o k = Some b ->
              firstNewestOf (seen ++ [a]) b).
    { intros k b Hb. apply firstNewestOf_snoc; [now apply Hfirst with k|].
      destruct (Hown _ _ Hb) as [Hnb _]. intros Heq. exfalso.
      apply Hfresh. rewrite Heq, Hnb. now apply getOwn_some_key with b. }
    destruct (JsObject.inherited (originalFileName a)) eqn:Einh.
    + split; assumption.
    + split.
      * intros k b. rewrite getOwn_set.
        destruct (String.eqb_spec (originalFileName a) k) as [<-|Hne].
        -- intros [= <-]. apply firstNewestOf_last. intros c Hc Hn.
           exfalso. apply Hfresh. rewrite <- Hn. apply Hall; congruence.
        -- apply Hothers.
      * intros k. rewrite keys_set_new by assumption. intros Hk.
        apply in_app_or in Hk. destruct Hk as [Hk | [<- | []]]; auto.
Qed.

Lemma resolvesFirst_fold assets : forall seen o,
  resolves seen o -> resolvesFirst seen o ->
  resolvesFirst (seen ++ assets) (fold_left keepNewest assets o).
Proof.
  induction assets as [|a rest IH]; intros seen o H Hf; simpl.
  - now rewrite app_nil_r.
  - replace (seen ++ a :: rest) with ((seen ++ [a]) ++ rest)
      by now rewrite <- app_assoc.
    apply IH.
    + now apply resolves_keepNewest.
    + now apply resolvesFirst_keepNewest.
Qed.

Lemma resolvesFirst_filtered assets :
  resolvesFirst assets (fold_left keepNewest assets JsObject.empty).
Proof.
  apply (resolvesFirst_fold assets [] JsObject.empty).
  - apply resolves_empty.
  - apply resolvesFirst_empty.
Qed.

Lemma filterNewestAssets_firstNewestOf assets r :
  In r (filterNewestAssets assets) -> firstNewestOf assets r.
Proof.
  unfold filterNewestAssets. intros H. apply values_in in H.
  destruct H as (k & _ & Hk).
  destruct (resolvesFirst_filtered assets) as [Hfirst _]. now apply Hfirst with k.
Qed.

Lemma filterNewestAssets_not_inherited assets r :
  In r (filterNewestAssets assets) ->
  JsObject.inherited (originalFileName r) = false.
Proof.
  intros H.
  destruct (resolvesFirst_filtered assets) as [_ Hkeys]. apply Hkeys.
  apply (Permutation_in _ (filterNewestAssets_names assets)).
  now apply in_map.
Qed.

(** C2.  For every input list, [filterNewestAssets] returns at most one
    record per distinct [originalFileName] (the names of its output are
    pairwise distinct); every record it returns is one of the inputs whose
    [v] is the maximum among the inputs bearing its name; every input name
    that [Object.prototype] does not define has its record in the output;
    and an input name that [Object.prototype] defines (constructor,
    toString and the like) has none, where the claim has the record of
    greatest [v] returned for each name. *)
Theorem filterNewestAssets_one_newest_per_plain_name (assets : list Asset) :
  NoDup (map originalFileName (filterNewestAssets assets)) /\
  (forall r, In r (filterNewestAssets assets) ->
     In r assets /\
     forall r', In r' assets -> originalFileName r' = originalFileName r ->
                v r' <= v r) /\
  (forall a, In a assets ->
     JsObject.inherited (originalFileName a) = false ->
     exists r, In r (filterNewestAssets assets) /\
               originalFileName r = originalFileName a) /\
  (forall a, In a assets ->
     JsObject.inherited (originalFileName a) = true ->
     forall r, In r (filterNewestAssets assets) ->
               originalFileName r <> originalFileName a).
Proof.
  split; [apply filterNewestAssets_NoDup|]. split.
  { intros r Hr. exact (filterNewestAssets_newestOf assets r Hr). }
  split.
  { intros a Ha Hplain. now apply filterNewestAssets_covers. }
  intros a _ Hinh r Hr E.
  apply filterNewestAssets_not_inherited in Hr. congruence.
Qed.

(** The failing input of C2: of a record named constructor and one named
    k.png, the resolver returns the second only. *)
Lemma filterNewestAssets_drops_constructor_witness :
  filterNewestAssets [SampleMore.k_ctor; SampleMore.k_png]
  = [SampleMore.k_png] /\
  forall r,
    In r (filterNewestAssets [SampleMore.k_ctor; SampleMore.k_png]) ->
    originalFileName r <> originalFileName SampleMore.k_ctor.
Proof.
  split; [reflexivity|].
  apply (proj2 (proj2 (proj2 (filterNewestAssets_one_newest_per_plain_name
                                [SampleMore.k_ctor; SampleMore.k_png])))
           SampleMore.k_ctor).
  - now left.
  - reflexivity.
Defined.

(** X1.  For every input list, the names of the records [filterNewestAssets]
    returns are exactly the names of the inputs that [Object.prototype]
    does not define: an input name such as constructor or toString yields
    no record, every other input name yields one. *)
Theorem filterNewestAssets_keeps_unshadowed_names (assets : list Asset)
        (name : string) :
  In name (map originalFileName (filterNewestAssets assets)) <->
  In name (map originalFileName assets) /\ JsObject.inherited name = false.
Proof.
  split.
  - intros H. apply in_map_iff in H. destruct H as (r & <- & Hr). split.
    + apply in_map. now apply filterNewestAssets_newestOf.
    + now apply filterNewestAssets_not_inherited with assets.
  - intros [H Hinh]. apply in_map_iff in H. destruct H as (b & <- & Hb).
    destruct (filterNewestAssets_covers assets b Hb Hinh) as (r & Hr & Hn).
    rewrite <- Hn. now apply in_map.
Qed.

(** X2.  Of several inputs with the same name [filterNewestAssets]
    keeps the first of the newest: every record it returns stands in the
    input after only strictly older records of its name and before none
    that is newer (the comparison that replaces a kept record is strict). *)
Theorem filterNewestAssets_keeps_first_of_newest (assets : list Asset) :
  Forall (fun r =>
            exists before after,
              assets = before ++ r :: after /\
              (forall b, In b before ->
                         originalFileName b = originalFileName r ->
                         v b < v r) /\
              (forall b, In b after ->
                         originalFileName b = originalFileName r ->
                         v b <= v r))
         (filterNewestAssets assets).
Proof.
  apply Forall_forall. intros r Hr.
  exact (filterNewestAssets_firstNewestOf assets r Hr).
Qed.

(** * The resolver on projected documents *)

Lemma filterNewestAssets_filterNewestBy (assets : list Asset) :
  filterNewestAssets assets = filterNewestBy originalFileName v assets.
Proof. reflexivity. Qed.

Section Transport.

(** The resolver commutes with a map between document types that keeps
    name and version. *)
Context {A B : Type}.
Variables (nameA : A -> string) (versionA : A -> Z).
Variables (nameB : B -> string) (versionB : B -> Z).
Variable f : A -> B.
Hypothesis f_name : forall a, nameB (f a) = nameA a.
Hypothesis f_version : forall a, versionB (f a) = versionA a.

Lemma getOwn_mapValuesTo (o : JsObject.t A) k :
  JsObject.getOwn (mapValuesTo f o) k = option_map f (JsObject.getOwn o k).
Proof.
  induction o as [|[k0 y] r IH]; simpl; [reflexivity|].
  destruct (k0 =? k)%string; [reflexivity | apply IH].
Qed.

Lemma set_mapValuesTo (o : JsObject.t A) k x :
  JsObject.set (mapValuesTo f o) k (f x) = mapValuesTo f (JsObject.set o k x).
Proof.
  induction o as [|[k0 y] r IH]; simpl; [reflexivity|].
  destruct (k0 =? k)%string; simpl; [reflexivity | now rewrite IH].
Qed.

Lemma keepNewestBy_mapValuesTo (o : JsObject.t A) a :
  keepNewestBy nameB versionB (mapValuesTo f o) (f a)
  = mapValuesTo f (keepNewestBy nameA versionA o a).
Proof.
  unfold keepNewestBy, JsObject.get. rewrite f_name, getOwn_mapValuesTo.
  destruct (JsObject.getOwn o (nameA a)) as [kept|]; simpl.
  - rewrite !f_version.
    destruct (versionA kept <? versionA a);
      [apply set_mapValuesTo | reflexivity].
  - destruct (JsObject.inherited (nameA a));
      [reflexivity | apply set_mapValuesTo].
Qed.

Lemma fold_keepNewestBy_mapValuesTo (l : list A) : forall o,
  fold_left (keepNewestBy nameB versionB) (map f l) (mapValuesTo f o)
  = mapValuesTo f (fold_left (keepNewestBy nameA versionA) l o).
Proof.
  induction l as [|a r IH]; intros o; simpl; [reflexivity|].
  now rewrite keepNewestBy_mapValuesTo, IH.
Qed.

Lemma insertIndex_mapValuesTo (e : string * A) (l : JsObject.t A) :
  JsObject.insertIndex (fst e, f (snd e)) (mapValuesTo f l)
  = mapValuesTo f (JsObject.insertIndex e l).
Proof.
  induction l as [|y r IH]; simpl; [reflexivity|].
  destruct (JsObject.indexOf (fst e) <=? JsObject.indexOf (fst y))%N; simpl;
    [reflexivity | now rewrite IH].
Qed.

Lemma ordered_mapValuesTo (o : JsObject.t A) :
  JsObject.ordered (mapValuesTo f o) = mapValuesTo f (JsObject.ordered o).
Proof.
  unfold JsObject.ordered, mapValuesTo at 3. rewrite map_app. f_equal.
  - induction o as [|e r IH]; simpl; [reflexivity|].
    destruct (JsObject.isIndex (fst e)); simpl; [|apply IH].
    rewrite IH. apply insertIndex_mapValuesTo.
  - induction o as [|e r IH]; simpl; [reflexivity|].
    destruct (JsObject.isIndex (fst e)); simpl; [apply IH | now rewrite IH].
Qed.

Lemma keys_mapValuesTo (o : JsObject.t A) :
  JsObject.keys (mapValuesTo f o) = JsObject.keys o.
Proof.
  unfold JsObject.keys. rewrite ordered_mapValuesTo. unfold mapValuesTo.
  rewrite map_map. reflexivity.
Qed.

Lemma filterNewestBy_map (l : list A) :
  filterNewestBy nameB versionB (map f l)
  = map f (filterNewestBy nameA versionA l).
Proof.
  unfold filterNewestBy.
  change (@JsObject.empty B) with (mapValuesTo f (@JsObject.empty A)).
  rewrite fold_keepNewestBy_mapValuesTo, keys_mapValuesTo.
  induction (JsObject.keys
               (fold_left (keepNewestBy nameA versionA) l JsObject.empty))
    as [|k r IH]; simpl; [reflexivity|].
  rewrite map_app, IH, getOwn_mapValuesTo.
  now destruct (JsObject.getOwn
                  (fold_left (keepNewestBy nameA versionA) l JsObject.empty) k).
Qed.

End Transport.

Lemma filter_map_comm {A B : Type} (f : A -> B) (p : B -> bool) (l : list A) :
  filter p (map f l) = map f (filter (fun a => p (f a)) l).
Proof.
  induction l as [|a r IH]; simpl; [reflexivity|].
  destruct (p (f a)); simpl; now rewrite IH.
Qed.

(** [getCurrentAssets] in terms of the stored documents. *)
Lemma getCurrentAssets_stored (assets : list Asset) (wid : string) :
  getCurrentAssets assets wid
  = map projected
        (filter (fun a => negb (JS.truthy_opt (deletedAt a)))
                (filterNewestAssets
                   (Mongo.find (fun a => (webstrateId a =? wid)%string)
                               assets))).
Proof.
  unfold getCurrentAssets.
  rewrite (filterNewestBy_map originalFileName v
             Projected.originalFileName Projected.v projected
             (fun _ => eq_refl) (fun _ => eq_refl)).
  rewrite filter_map_comm. reflexivity.
Qed.

(** * The first of the greatest *)

Section FirstMax.

Context {Doc : Type}.
Variable key : Doc -> Z.

Lemma firstMax_unique (l : list Doc) (d d' : Doc) :
  firstMax key l d -> firstMax key l d' -> d = d'.
Proof.
  intros (b1 & a1 & E1 & Hb1 & Ha1) (b2 & a2 & E2 & Hb2 & Ha2).
  subst l. revert b2 E2 Hb2.
  induction b1 as [|x b1 IH]; intros [|y b2] E2 Hb2; simpl in E2.
  - congruence.
  - injection E2 as <- E2.
    assert (Hd' : In d' a1) by (rewrite E2; apply in_or_app; right; now left).
    specialize (Ha1 d' Hd'). specialize (Hb2 d (or_introl eq_refl)). lia.
  - injection E2 as -> E2.
    assert (Hd : In d a2) by (rewrite <- E2; apply in_or_app; right; now left).
    specialize (Ha2 d Hd). specialize (Hb1 d' (or_introl eq_refl)). lia.
  - injection E2 as <- E2. apply (IH (fun b Hb => Hb1 b (or_intror Hb)) b2 E2).
    intros b Hb. apply Hb2. now right.
Qed.

Lemma sortDesc_head_firstMax (l : list Doc) (d : Doc) :
  hd_error (Mongo.sortDesc key l) = Some d -> firstMax key l d.
Proof.
  revert d. induction l as [|a l IH]; intros d.
  - discriminate.
  - rewrite sortDesc_cons.
    destruct (insertDesc_head key a (Mongo.sortDesc key l))
      as (h & t & E & Hh & Hle).
    rewrite E. simpl. intros [= <-].
    destruct Hh as [-> | (t' & Et & Hlt)].
    + exists [], l. split; [reflexivity|]. split; [intros b []|].
      intros b Hb.
      destruct (Mongo.sortDesc key l) as [|y s] eqn:Es.
      * apply sortDesc_nil_inv in Es. subst l. destruct Hb.
      * specialize (Hle y eq_refl).
        assert (Hy : hd_error (Mongo.sortDesc key l) = Some y)
          by now rewrite Es.
        apply sortDesc_head_newest in Hy. destruct Hy as [_ Hmax].
        specialize (Hmax b Hb). lia.
    + assert (Hh : hd_error (Mongo.sortDesc key l) = Some h) by now rewrite Et.
      destruct (IH h Hh) as (before & after & -> & Hb & Ha).
      exists (a :: before), after. split; [reflexivity|]. split; [|assumption].
      intros b [<- | Hin]; [lia | now apply Hb].
Qed.

Lemma firstMax_sortDesc_head (l : list Doc) (d : Doc) :
  firstMax key l d -> hd_error (Mongo.sortDesc key l) = Some d.
Proof.
  intros H. destruct (hd_error (Mongo.sortDesc key l)) as [d'|] eqn:E.
  - f_equal. apply sortDesc_head_firstMax in E.
    now apply firstMax_unique with l.
  - apply sortDesc_head_none in E. destruct H as (b & a & -> & _).
    now destruct b.
Qed.

Lemma findOneSorted_firstMax (query : Doc -> bool) (c : list Doc) (d : Doc) :
  Mongo.findOneSorted key query c = Some d <->
  firstMax key (filter query c) d.
Proof.
  unfold Mongo.findOneSorted, Mongo.find. split.
  - apply sortDesc_head_firstMax.
  - apply firstMax_sortDesc_head.
Qed.

End FirstMax.

Lemma filter_filter_and {A : Type} (p q : A -> bool) (l : list A) :
  filter p (filter q l) = filter (fun a => q a && p a) l.
Proof.
  induction l as [|a r IH]; simpl; [reflexivity|].
  destruct (q a); simpl; [destruct (p a)|]; now rewrite IH.
Qed.

(** The first newest of a name among a document's records is what the
    unversioned query for that name selects. *)
Lemma firstNewestOf_selected (assets : list Asset) (wid : string) (r : Asset) :
  firstNewestOf (Mongo.find (fun a => (webstrateId a =? wid)%string) assets)
                r ->
  firstMax v (filter (getAssetQuery wid (originalFileName r) None) assets) r.
Proof.
  intros (before & after & E & Hb & Ha).
  set (named := fun a : Asset =>
                  (originalFileName a =? originalFileName r)%string).
  assert (Ef : filter (getAssetQuery wid (originalFileName r) None) assets
               = filter named
                   (Mongo.find (fun a => (webstrateId a =? wid)%string)
                               assets)).
  { unfold Mongo.find. rewrite filter_filter_and. apply filter_ext.
    intros a. unfold getAssetQuery, byName, named. simpl.
    now rewrite andb_true_r. }
  rewrite Ef, E, filter_app. simpl.
  unfold named at 2. rewrite String.eqb_refl.
  exists (filter named before), (filter named after).
  split; [reflexivity|]. split.
  - intros b Hin. apply filter_In in Hin. destruct Hin as [Hin Hn].
    apply Hb; trivial. now apply String.eqb_eq.
  - intros b Hin. apply filter_In in Hin. destruct Hin as [Hin Hn].
    apply Ha; trivial. now apply String.eqb_eq.
Qed.

Lemma getAsset_served assets wid name version :
  getAsset assets wid name version
  = match Mongo.findOneSorted v (getAssetQuery wid name version) assets with
    | None => JS.Rejected JS.TypeError
    | Some asset => served version asset
    end.
Proof. reflexivity. Qed.

Lemma served_latest_some (asset r : Asset) :
  served None asset = JS.Resolved (Some r) <->
  asset = r /\ JS.truthy_opt (deletedAt r) = false.
Proof.
  unfold served. simpl. rewrite andb_true_r. split.
  - destruct (JS.truthy_opt (deletedAt asset)) eqn:E; [discriminate|].
    intros [= <-]. now split.
  - intros [<- ->]. reflexivity.
Qed.

Lemma served_before_deletion (V dl : Z) (asset : Asset) :
  V <> 0 -> deletedAt asset = Some dl -> V < dl ->
  served (Some V) asset = JS.Resolved (Some asset).
Proof.
  intros HV Hdel Hlt. unfold served. rewrite Hdel. simpl. unfold JS.truthy.
  destruct (Z.eqb_spec V 0); [contradiction|]. simpl.
  destruct (Z.leb_spec dl V); [lia|]. now rewrite andb_false_r.
Qed.

Lemma served_latest_deleted (version : option Z) (dl : Z) (asset : Asset) :
  JS.truthy_opt version = false -> deletedAt asset = Some dl -> dl <> 0 ->
  served version asset = JS.Resolved None.
Proof.
  intros Hfalsy Hdel Hdl. unfold served. rewrite Hdel, Hfalsy. simpl.
  unfold JS.truthy. destruct (Z.eqb_spec dl 0); [contradiction|].
  reflexivity.
Qed.

Section CurrentAssets.

Variables (assets : list Asset) (wid : string).

(** X3.  [getCurrentAssets] lists at most one entry per logical name,
    and every entry is the projection of a newest record of the document
    under that name whose [deletedAt] is unset or 0; so a name whose newest
    record is marked deleted is not listed, whatever older records it has. *)
Theorem getCurrentAssets_lists_live_newest :
  NoDup (map Projected.originalFileName (getCurrentAssets assets wid)) /\
  Forall (fun e =>
            exists r,
              e = projected r /\
              currentRecord assets wid (Projected.originalFileName e) None r /\
              (deletedAt r = None \/ deletedAt r = Some 0))
         (getCurrentAssets assets wid).
Proof.
  rewrite getCurrentAssets_stored.
  set (found := Mongo.find (fun a => (webstrateId a =? wid)%string) assets).
  split.
  - rewrite map_map. simpl.
    assert (Hnd := filterNewestAssets_NoDup found).
    induction (filterNewestAssets found) as [|a l IH]; simpl; [constructor|].
    inversion Hnd as [|? ? Hnotin Hnd']; subst.
    destruct (JS.truthy_opt (deletedAt a)); simpl; [now apply IH|].
    constructor; [|now apply IH].
    intros Hin. apply Hnotin. apply in_map_iff in Hin.
    destruct Hin as (b & Hb & Hin). apply filter_In in Hin.
    rewrite <- Hb. apply in_map. tauto.
  - apply Forall_forall. intros e He. apply in_map_iff in He.
    destruct He as (r & <- & Hr). apply filter_In in Hr.
    destruct Hr as [Hr Hlive]. exists r. split; [reflexivity|]. split.
    + apply filterNewestAssets_newestOf in Hr. destruct Hr as [Hin Hmax].
      unfold found, Mongo.find in Hin, Hmax. apply filter_In in Hin.
      destruct Hin as [Hin Hw]. apply String.eqb_eq in Hw.
      repeat split; trivial.
      intros x Hx Hxw Hxn _. apply Hmax; trivial.
      apply filter_In. split; trivial. now apply String.eqb_eq.
    + apply negb_true_iff in Hlive. destruct (deletedAt r) as [d|]; [|now left].
      right. simpl in Hlive. unfold JS.truthy in Hlive.
      apply negb_false_iff, Z.eqb_eq in Hlive. now subst.
Qed.

(** X4.  For a name that [Object.prototype] does not define and whose
    records in the document have pairwise distinct versions (so that the
    order among equal sort keys plays no part: [greatestMatch_unique]),
    [getCurrentAssets] lists an entry under that name exactly when
    [getAsset] without a version resolves to a record for it, and the entry
    is the projection of that very record. *)
Theorem getCurrentAssets_agrees_with_getAsset (name : string)
        (e : Projected.t) :
  JsObject.inherited name = false ->
  NoDup (map v (Mongo.find (byName wid name) assets)) ->
  (In e (getCurrentAssets assets wid) /\ Projected.originalFileName e = name
   <->
   exists r, projected r = e /\
             getAsset assets wid name None = JS.Resolved (Some r)).
Proof.
  intros Hinh _. rewrite getCurrentAssets_stored.
  set (found := Mongo.find (fun a => (webstrateId a =? wid)%string) assets).
  split.
  - intros [He Hname]. apply in_map_iff in He. destruct He as (r & <- & Hr).
    apply filter_In in Hr. destruct Hr as [Hr Hlive].
    apply negb_true_iff in Hlive. simpl in Hname. subst name.
    exists r. split; [reflexivity|]. rewrite getAsset_served.
    apply filterNewestAssets_firstNewestOf, firstNewestOf_selected in Hr.
    apply findOneSorted_firstMax in Hr. rewrite Hr.
    now apply served_latest_some.
  - intros (r & <- & Hget). rewrite getAsset_served in Hget.
    destruct (Mongo.findOneSorted v (getAssetQuery wid name None) assets)
      as [asset|] eqn:Esel; [|discriminate].
    apply served_latest_some in Hget. destruct Hget as [-> Hlive].
    pose proof Esel as Hfirst. apply findOneSorted_firstMax in Hfirst.
    apply findOneSorted_some in Esel. destruct Esel as (Hin & Hq & _).
    unfold getAssetQuery in Hq. simpl in Hq. rewrite andb_true_r in Hq.
    apply byName_true in Hq. destruct Hq as [Hw Hn].
    assert (Hfound : In r found).
    { apply filter_In. split; trivial. now apply String.eqb_eq. }
    rewrite <- Hn in Hinh.
    destruct (filterNewestAssets_covers found r Hfound Hinh)
      as (r2 & Hr2 & Hn2).
    pose proof (firstNewestOf_selected assets wid r2
                  (filterNewestAssets_firstNewestOf found r2 Hr2)) as Hsel2.
    rewrite Hn2, Hn in Hsel2.
    assert (r2 = r) by (apply (firstMax_unique v _ _ _ Hsel2 Hfirst)).
    subst r2. split; [|assumption].
    apply in_map. apply filter_In. split; trivial. now rewrite Hlive.
Qed.

End CurrentAssets.

(** * What retrieval answers *)

Lemma served_some (version : option Z) (asset r : Asset) :
  served version asset = JS.Resolved (Some r) ->
  asset = r /\
  match deletedAt r with
  | None => True
  | Some d =>
      d = 0 \/ exists V, version = Some V /\ V <> 0 /\ V < d
  end.
Proof.
  unfold served.
  destruct (deletedAt asset) as [d|] eqn:Ed; simpl.
  - unfold JS.truthy. destruct (Z.eqb_spec d 0) as [->|Hd]; simpl.
    + intros [= <-]. rewrite Ed. split; [reflexivity | now left].
    + destruct version as [V|]; simpl; [|discriminate].
      unfold JS.truthy. destruct (Z.eqb_spec V 0) as [->|HV]; simpl;
        [discriminate|].
      rewrite orb_false_r. destruct (Z.leb_spec d V); [discriminate|].
      intros [= <-]. rewrite Ed. split; [reflexivity|]. right. now exists V.
  - intros [= <-]. now rewrite Ed.
Qed.

Lemma served_none (version : option Z) (asset : Asset) :
  served version asset = JS.Resolved None ->
  exists d, deletedAt asset = Some d /\ d <> 0.
Proof.
  unfold served. destruct (deletedAt asset) as [d|]; simpl.
  - unfold JS.truthy. destruct (Z.eqb_spec d 0) as [->|Hd]; simpl.
    + discriminate.
    + intros _. now exists d.
  - discriminate.
Qed.

Lemma getAssetQuery_sound wid name version a :
  getAssetQuery wid name version a = true ->
  webstrateId a = wid /\ originalFileName a = name /\
  (version <> Some 0 -> upTo version a).
Proof.
  unfold getAssetQuery. rewrite andb_true_iff, byName_true.
  intros [[Hw Hn] Hv]. repeat split; trivial. intros Hne.
  destruct version as [V|]; simpl in *; [|exact I].
  unfold JS.truthy in Hv. destruct (Z.eqb_spec V 0) as [->|_]; [congruence|].
  simpl in Hv. now apply Z.leb_le.
Qed.

Section Answers.

Variables (assets : list Asset) (wid name : string) (version : option Z).

(** X5.  A record [getAsset] resolves to is a record of the store
    with the queried document and name, at or below the queried version
    when that is not 0, and with [deletedAt] unset, 0, or above a queried
    version other than 0; and it resolves to the absent result only when
    the store holds a record of that document and name with a [deletedAt]
    other than 0. *)
Theorem getAsset_answers_from_the_store :
  (forall r, getAsset assets wid name version = JS.Resolved (Some r) ->
     In r assets /\ webstrateId r = wid /\ originalFileName r = name /\
     (version <> Some 0 -> upTo version r) /\
     match deletedAt r with
     | None => True
     | Some d => d = 0 \/ exists V, version = Some V /\ V <> 0 /\ V < d
     end) /\
  (getAsset assets wid name version = JS.Resolved None ->
   exists r d, In r assets /\ webstrateId r = wid /\
               originalFileName r = name /\
               deletedAt r = Some d /\ d <> 0).
Proof.
  rewrite getAsset_served.
  destruct (Mongo.findOneSorted v (getAssetQuery wid name version) assets)
    as [asset|] eqn:E.
  - apply findOneSorted_some in E. destruct E as (Hin & Hq & _).
    apply getAssetQuery_sound in Hq. destruct Hq as (Hw & Hn & Hu). split.
    + intros r Hr. apply served_some in Hr. destruct Hr as [<- Hd]. tauto.
    + intros Hr. apply served_none in Hr. destruct Hr as (d & Hd & Hne).
      now exists asset, d.
  - split; [intros r|]; discriminate.
Qed.

End Answers.

(** * Soft deletion, then retrieval *)





Lemma filter_updateOne_other (query : Asset -> bool)
      (update : Asset -> Asset) (c : list Asset) (r : Asset) :
  query r = false -> query (update r) = false ->
  filter query (Mongo.updateOne Asset_eqb r update c) = filter query c.
Proof.
  intros Hr Hu. induction c as [|x t IH]; simpl; [reflexivity|].
  destruct (Asset_eqb x r) eqn:E.
  - apply Asset_eqb_eq in E. subst x. simpl. now rewrite Hr, Hu.
  - simpl. now rewrite IH.
Qed.

Section MarkThenGet.

Variables (vs : Versions) (assets : list Asset) (wid name : string).




(** X7.  [markAssetAsDeleted] of one asset changes no answer of
    [getAsset] for another document or another name, at any version. *)
Theorem markAssetAsDeleted_leaves_other_assets (wid' name' : string)
        (version : option Z) :
  wid' <> wid \/ name' <> name ->
  getAsset (fst (markAssetAsDeleted vs assets wid name)) wid' name' version
  = getAsset assets wid' name' version.
Proof.
  intros Hother. unfold markAssetAsDeleted, Mongo.findOneAndUpdate.
  destruct (Mongo.findOneSorted v (byName wid name) assets) as [r|] eqn:Hr;
    [|reflexivity].
  simpl. apply findOneSorted_some in Hr. destruct Hr as (_ & Hq & _).
  apply byName_true in Hq. destruct Hq as [Hrw Hrn].
  assert (Hno : getAssetQuery wid' name' version r = false).
  { unfold getAssetQuery, byName. rewrite Hrw, Hrn.
    destruct Hother as [H | H]; apply not_eq_sym in H;
      apply String.eqb_neq in H; rewrite H; simpl;
      [reflexivity | now rewrite andb_false_r]. }
  rewrite !getAsset_served. unfold Mongo.findOneSorted, Mongo.find.
  now rewrite filter_updateOne_other.
Qed.

End MarkThenGet.

(** * Copy and restore, then retrieval *)

Lemma withIds_app (l1 l2 : list Asset) : forall n,
  withIds n (l1 ++ l2)
  = withIds n l1 ++ withIds (n + List.length l1)%nat l2.
Proof.
  induction l1 as [|x r IH]; intros n; simpl.
  - now rewrite Nat.add_0_r.
  - rewrite IH.
    now replace (S n + List.length r)%nat with (n + S (List.length r))%nat
      by lia.
Qed.

Lemma filter_none {A : Type} (p : A -> bool) (l : list A) :
  (forall x, In x l -> p x = false) -> filter p l = [].
Proof.
  induction l as [|a r IH]; intros H; simpl; [reflexivity|].
  rewrite (H a (or_introl eq_refl)). apply IH. intros x Hx. apply H. now right.
Qed.

Lemma filter_withIds_none (query : Asset -> bool) (g : Asset -> Asset)
      (l : list Asset) :
  (forall s i, In s l -> query (set_id (Some i) (g s)) = false) ->
  forall n, filter query (withIds n (map g l)) = [].
Proof.
  induction l as [|x r IH]; intros H n; simpl; [reflexivity|].
  rewrite (H x n (or_introl eq_refl)). apply IH.
  intros s i Hs. apply H. now right.
Qed.

(** A record the resolver keeps splits the others it keeps into records
    of other names. *)
Lemma resolvedAt_split assets wid version src :
  In src (resolvedAt assets wid version) ->
  exists l1 l2,
    resolvedAt assets wid version = l1 ++ src :: l2 /\
    forall s, In s l1 \/ In s l2 ->
              originalFileName s <> originalFileName src.
Proof.
  intros Hin. pose proof (resolvedAt_NoDup assets wid version) as Hnd.
  apply in_split in Hin. destruct Hin as (l1 & l2 & E). rewrite E in Hnd.
  exists l1, l2. split; [assumption|].
  rewrite map_app in Hnd. simpl in Hnd. apply NoDup_remove_2 in Hnd.
  intros s Hs Heq. apply Hnd. rewrite <- Heq. apply in_or_app.
  destruct Hs as [Hs | Hs]; [left | right]; now apply in_map.
Qed.

(** Where the clone of a kept record lands among the inserted documents,
    and what a query by its name finds there. *)
Lemma filter_inserted (query : Asset -> bool) (g : Asset -> Asset)
      (l1 l2 : list Asset) (src : Asset) (n : ObjectId) :
  (forall s i, In s l1 \/ In s l2 ->
               query (set_id (Some i) (g s)) = false) ->
  (forall i, query (set_id (Some i) (g src)) = true) ->
  filter query (withIds n (map g (l1 ++ src :: l2)))
  = [set_id (Some (n + List.length l1)%nat) (g src)].
Proof.
  intros Hothers Hsrc. rewrite map_app, withIds_app, filter_app. simpl.
  rewrite Hsrc, length_map, !filter_withIds_none; [reflexivity | |];
    intros s i Hs; apply Hothers; tauto.
Qed.

Section RestoreMore.

Variable getVersionFromTag : string -> option string -> JS.Callback (option Z).

(** X8.  When the new version is above the version of every record of
    the document, then after [restoreAssets] from a version other than 0
    each record the resolver keeps has a clone in the store, and [getAsset]
    without a version for its name answers with that clone, or with the
    absent result when the source carries a [deletedAt] other than 0. *)
Theorem restoreAssets_then_getAsset (fuel : nat) (d : Db) (wid : string)
        (version : Z) (tag : option string) (newVersion : Z) (src : Asset) :
  version <> 0 ->
  (forall x, In x (docs d) -> webstrateId x = wid -> v x < newVersion) ->
  In src (resolvedAt (docs d) wid version) ->
  exists d' clone,
    restoreAssets getVersionFromTag (S fuel) d wid (Some version) tag newVersion
    = Some (d', JS.CbOk tt) /\
    In clone (docs d') /\ restoredFrom newVersion src clone /\
    getAsset (docs d') wid (originalFileName src) None
    = if JS.truthy_opt (deletedAt src) then JS.Resolved None
      else JS.Resolved (Some clone).
Proof.
  intros Hv Hnewer Hsrc.
  destruct (restoreAssets_docs getVersionFromTag fuel d wid version tag
              newVersion Hv)
    as (d' & answer & Hres & Hdocs & _ & _ & Hsome & _).
  rewrite Hsome in Hres
    by (intros Hnil; rewrite Hnil in Hsrc; contradiction).
  destruct (resolvedAt_split _ _ _ _ Hsrc) as (l1 & l2 & Esplit & Hnames).
  pose proof (resolvedAt_current _ _ _ _ Hsrc) as (_ & Hw & _).
  set (g := fun s => set_v newVersion (without_id s)) in *.
  set (clone := set_id (Some (nextId d + List.length l1)%nat) (g src)).
  set (query := getAssetQuery wid (originalFileName src) None).
  assert (Hfilter : filter query (docs d')
                    = filter query (docs d) ++ [clone]).
  { rewrite Hdocs, Esplit, filter_app. f_equal. apply filter_inserted.
    - intros s i Hs. unfold query, getAssetQuery, byName. simpl.
      apply Hnames in Hs. apply String.eqb_neq in Hs. rewrite Hs.
      now rewrite andb_false_r.
    - intros i. unfold query, getAssetQuery, byName. simpl.
      now rewrite Hw, !String.eqb_refl. }
  exists d', clone. split; [assumption|]. split.
  { rewrite Hdocs, Esplit, map_app, withIds_app, length_map.
    apply in_or_app. right. apply in_or_app. right. now left. }
  split.
  { unfold restoredFrom, sameContent. simpl. repeat split. }
  rewrite getAsset_served.
  assert (Hsel : Mongo.findOneSorted v query (docs d') = Some clone).
  { apply findOneSorted_firstMax. rewrite Hfilter.
    exists (filter query (docs d)), []. split; [reflexivity|]. split.
    - intros b Hb. apply filter_In in Hb. destruct Hb as [Hb Hq].
      apply getAssetQuery_sound in Hq. simpl. apply Hnewer; tauto.
    - intros b []. }
  fold query. rewrite Hsel. unfold served. simpl.
  now rewrite andb_true_r.
Qed.

(** X9.  With a missing (or 0) version [restoreAssets] asks for the
    tag's version: an error of the lookup is passed to the callback and
    nothing is inserted; a lookup that never calls back leaves the
    callback uncalled; a version other than 0 is restored from in the next
    call; and a lookup that calls back without a version (or with 0)
    makes the function call itself without end, whatever the fuel. *)
Theorem restoreAssets_by_tag (d : Db) (wid : string) (version : option Z)
        (tag : option string) (newVersion : Z) :
  JS.truthy_opt version = false ->
  match getVersionFromTag wid tag with
  | JS.CbErr err =>
      forall fuel,
        restoreAssets getVersionFromTag (S fuel) d wid version tag newVersion
        = Some (d, JS.CbErr err)
  | JS.NotCalled =>
      forall fuel,
        restoreAssets getVersionFromTag (S fuel) d wid version tag newVersion
        = Some (d, JS.NotCalled)
  | JS.CbOk found =>
      if JS.truthy_opt found
      then forall fuel,
             restoreAssets getVersionFromTag (S (S fuel)) d wid version tag
                           newVersion
             = restoreAssets getVersionFromTag (S fuel) d wid found tag
                             newVersion
      else forall fuel,
             restoreAssets getVersionFromTag fuel d wid version tag newVersion
             = None
  end.
Proof.
  intros Hfalsy.
  destruct (getVersionFromTag wid tag) as [|err|found] eqn:Etag.
  - intros fuel. simpl. now rewrite Hfalsy, Etag.
  - intros fuel. simpl. now rewrite Hfalsy, Etag.
  - destruct (JS.truthy_opt found) eqn:Efound.
    + intros fuel. cbn [restoreAssets]. rewrite Hfalsy. cbn [negb].
      rewrite Etag. reflexivity.
    + intros fuel. revert version Hfalsy.
      induction fuel as [|fuel IH]; intros version Hfalsy; [reflexivity|].
      cbn [restoreAssets]. rewrite Hfalsy. cbn [negb]. rewrite Etag.
      now apply IH.
Qed.

(** X21.  When the document has records at or below a version other
    than 0 and every one of them bears a name that [Object.prototype]
    defines, the resolver keeps none of them: [restoreAssets], which tests
    the length before the resolver runs, hands the empty list to
    [insertMany], inserts nothing and calls back with the driver's error;
    [copyAssets], which tests the length after it, inserts nothing and
    calls back without error. *)
Theorem restoreAssets_empty_batch (fuel : nat) (d : Db) (wid : string)
        (version : Z) (tag : option string) (newVersion : Z)
        (toWebstrateId : string) (x : Asset) :
  version <> 0 ->
  In x (docs d) -> webstrateId x = wid -> v x <= version ->
  (forall a, In a (docs d) -> webstrateId a = wid -> v a <= version ->
             JsObject.inherited (originalFileName a) = true) ->
  restoreAssets getVersionFromTag (S fuel) d wid (Some version) tag newVersion
  = Some (d, JS.CbErr noOperations) /\
  copyAssets d wid toWebstrateId version = (d, JS.CbOk tt).
Proof.
  intros Hv Hx Hw Hle Hall.
  assert (Hnil : resolvedAt (docs d) wid version = []).
  { destruct (resolvedAt (docs d) wid version) as [|r rest] eqn:Er;
      [reflexivity|].
    assert (Hr : In r (resolvedAt (docs d) wid version))
      by (rewrite Er; now left).
    pose proof (resolvedAt_current _ _ _ _ Hr) as (Hin & Hrw & _ & Hrv & _).
    unfold resolvedAt in Hr. apply filterNewestAssets_not_inherited in Hr.
    rewrite (Hall r Hin Hrw Hrv) in Hr. discriminate. }
  split.
  - destruct (restoreAssets_docs getVersionFromTag fuel d wid version tag
                newVersion Hv)
      as (d' & answer & Hres & _ & Hsame & _ & _ & Herr).
    rewrite Hres, (Hsame Hnil), Herr; trivial.
    intros Hfound.
    assert (Hf : In x (Mongo.find (byVersion wid (Some version)) (docs d))).
    { apply filter_In. split; trivial. apply byVersion_true. now split. }
    rewrite Hfound in Hf. destruct Hf.
  - unfold copyAssets. fold (resolvedAt (docs d) wid version).
    now rewrite Hnil.
Qed.

End RestoreMore.

(** X10.  When the target document has no records, then after
    [copyAssets] each record the resolver keeps of the source has a clone in
    the store, and [getAsset] on the target for its name, without a version
    or at a version that is not negative, answers from that clone alone.
    The clone keeps the source's [deletedAt]: a source deleted at version
    [d] is served in the target at the versions other than 0 below [d],
    and the answer without a version or at version 0 is the absent result
    when [d] is not 0. *)
Theorem copyAssets_then_getAsset (d : Db)
        (fromWebstrateId toWebstrateId : string) (version : Z) (src : Asset)
        (queried : option Z) :
  (forall x, In x (docs d) -> webstrateId x <> toWebstrateId) ->
  In src (resolvedAt (docs d) fromWebstrateId version) ->
  match queried with Some V => 0 <= V | None => True end ->
  exists clone,
    In clone (docs (fst (copyAssets d fromWebstrateId toWebstrateId version)))
    /\ copiedFrom toWebstrateId src clone /\
    getAsset (docs (fst (copyAssets d fromWebstrateId toWebstrateId version)))
             toWebstrateId (originalFileName src) queried
    = served queried clone /\
    (forall V dl, queried = Some V -> V <> 0 ->
                  deletedAt src = Some dl -> V < dl ->
                  served queried clone = JS.Resolved (Some clone)) /\
    (forall dl, JS.truthy_opt queried = false ->
                deletedAt src = Some dl -> dl <> 0 ->
                served queried clone = JS.Resolved None).
Proof.
  intros Hfresh Hsrc Hbound.
  destruct (resolvedAt_split _ _ _ _ Hsrc) as (l1 & l2 & Esplit & Hnames).
  set (clone := set_id (Some (nextId d + List.length l1)%nat)
                       (copyOf toWebstrateId src)).
  set (query := getAssetQuery toWebstrateId (originalFileName src) queried).
  assert (Hfilter :
            filter query
              (docs (fst (copyAssets d fromWebstrateId toWebstrateId version)))
            = [clone]).
  { rewrite copyAssets_docs, Esplit, filter_app.
    replace (filter query (docs d)) with (@nil Asset).
    - simpl. apply filter_inserted.
      + intros s i Hs. unfold query, getAssetQuery, byName. simpl.
        apply Hnames in Hs. apply String.eqb_neq in Hs. rewrite Hs.
        now rewrite andb_false_r.
      + intros i. unfold query, getAssetQuery, byName. simpl.
        rewrite !String.eqb_refl. simpl.
        destruct queried as [V|]; simpl; [|reflexivity].
        destruct (JS.truthy V); [|reflexivity]. now apply Z.leb_le.
    - symmetry. apply filter_none.
      intros x Hx. destruct (query x) eqn:E; [|reflexivity].
      apply getAssetQuery_sound in E. destruct E as (Hw & _).
      now destruct (Hfresh x Hx). }
  exists clone. split.
  { rewrite copyAssets_docs, Esplit, map_app, withIds_app, length_map.
    apply in_or_app. right. apply in_or_app. right. now left. }
  split.
  { unfold copiedFrom, sameContent, clone, copyOf, JS.or_else. simpl.
    repeat split. now destruct (_originalId src). }
  split.
  { rewrite getAsset_served. fold query.
    unfold Mongo.findOneSorted, Mongo.find. now rewrite Hfilter. }
  split.
  - intros V dl -> HV Hdel Hlt. now apply (served_before_deletion V dl).
  - intros dl Hfalsy Hdel Hdl. now apply (served_latest_deleted queried dl).
Qed.

(** * Bulk deletion and the other documents *)

Section DeleteMore.

Variable deleteSearchable : option ObjectId -> bool.
Variable unlinkFails : string -> bool.

Lemma deleteAssets_docs (d : Db) (files : Fs) (wid : string) :
  docs (fst (fst (deleteAssets deleteSearchable unlinkFails d files wid)))
  = docs d \/
  docs (fst (fst (deleteAssets deleteSearchable unlinkFails d files wid)))
  = filter (fun a => negb (webstrateId a =? wid)%string) (docs d).
Proof.
  unfold deleteAssets. destruct (forallb _ _); [right | left]; reflexivity.
Qed.

Lemma filter_other_document (query : Asset -> bool) (wid : string)
      (c : list Asset) :
  (forall a, query a = true -> webstrateId a <> wid) ->
  filter query (filter (fun a => negb (webstrateId a =? wid)%string) c)
  = filter query c.
Proof.
  intros H. rewrite filter_filter_and. apply filter_ext. intros a.
  destruct (query a) eqn:E; [|now rewrite andb_false_r].
  rewrite andb_true_r. apply negb_true_iff, String.eqb_neq. now apply H.
Qed.

(** X11.  [deleteAssets] of one document changes no answer of
    [getAsset], [getAssets] or [getCurrentAssets] for another document. *)
Theorem deleteAssets_leaves_other_documents (d : Db) (files : Fs)
        (wid other : string) :
  other <> wid ->
  (forall name version,
     getAsset (docs (fst (fst (deleteAssets deleteSearchable unlinkFails
                                            d files wid))))
              other name version
     = getAsset (docs d) other name version) /\
  getAssets (docs (fst (fst (deleteAssets deleteSearchable unlinkFails
                                          d files wid))))
            other
  = getAssets (docs d) other /\
  getCurrentAssets (docs (fst (fst (deleteAssets deleteSearchable unlinkFails
                                                 d files wid))))
                   other
  = getCurrentAssets (docs d) other.
Proof.
  intros Hother.
  destruct (deleteAssets_docs d files wid) as [-> | ->];
    [repeat split; reflexivity|].
  split; [|split].
  - intros name version. rewrite !getAsset_served.
    unfold Mongo.findOneSorted, Mongo.find.
    rewrite filter_other_document; [reflexivity|].
    intros a Hq. apply getAssetQuery_sound in Hq. destruct Hq as [-> _].
    assumption.
  - unfold getAssets, Mongo.find. rewrite filter_other_document; [reflexivity|].
    intros a Hq. apply String.eqb_eq in Hq. now rewrite Hq.
  - unfold getCurrentAssets, Mongo.find.
    rewrite filter_other_document; [reflexivity|].
    intros a Hq. apply String.eqb_eq in Hq. now rewrite Hq.
Qed.

Lemma unlink_subset (files : Fs) (name key : string) :
  In key (unlink unlinkFails files name) -> In key files.
Proof.
  unfold unlink. destruct (unlinkFails name); trivial.
  intros H. apply filter_In in H. tauto.
Qed.

Lemma unlink_all_subset (toDelete : list string) : forall files key,
  In key (fold_left (unlink unlinkFails) toDelete files) -> In key files.
Proof.
  induction toDelete as [|k rest IH]; intros files key H; simpl in *; trivial.
  apply IH in H. now apply unlink_subset in H.
Qed.

Lemma unlink_all_removes (toDelete : list string) : forall files key,
  In key toDelete -> unlinkFails key = false ->
  ~ In key (fold_left (unlink unlinkFails) toDelete files).
Proof.
  induction toDelete as [|k rest IH]; intros files key Hin Hworks; simpl.
  - destruct Hin.
  - destruct (string_dec k key) as [->|Hne].
    + intros H. apply unlink_all_subset in H. unfold unlink in H.
      rewrite Hworks in H. apply filter_In in H. destruct H as [_ H].
      now rewrite String.eqb_refl in H.
    + destruct Hin as [-> | Hin]; [congruence|]. now apply IH.
Qed.

(** X12.  For a storage key that only records of the deleted
    document refer to: when its unlink works the blob is gone after
    [deleteAssets]; and when the promise of the search index's deletion
    does not resolve, the callback is never called and every record stays
    in the store, although the blobs have been unlinked. *)
Theorem deleteAssets_unlinks_unshared_blobs (d : Db) (files : Fs)
        (wid key : string) (r : Asset) :
  In r (docs d) -> webstrateId r = wid -> fileName r = key ->
  (forall r', In r' (docs d) -> fileName r' = key -> webstrateId r' = wid) ->
  (unlinkFails key = false ->
   ~ In key (snd (fst (deleteAssets deleteSearchable unlinkFails
                                    d files wid)))) /\
  (deleteSearchable None = false ->
   deleteAssets deleteSearchable unlinkFails d files wid
   = (d, snd (fst (deleteAssets deleteSearchable unlinkFails d files wid)),
      JS.NotCalled)).
Proof.
  intros Hr Hw Hkey Hunshared. unfold deleteAssets.
  set (assets := map fileName (Mongo.find _ (docs d))).
  set (assetsBeingUsed := Mongo.distinct fileName _ (docs d)).
  set (assetsToBeDeleted := filter _ assets).
  assert (Hdel : In key assetsToBeDeleted).
  { apply filter_In. split.
    - unfold assets. rewrite <- Hkey. apply in_map. apply filter_In.
      split; trivial. now apply String.eqb_eq.
    - apply negb_true_iff. destruct (includes assetsBeingUsed key) eqn:E;
        [|reflexivity].
      apply includes_In in E. unfold assetsBeingUsed, Mongo.distinct in E.
      apply nodup_In, in_map_iff in E. destruct E as (r' & Hk & Hin).
      apply filter_In in Hin. destruct Hin as [Hin Hq].
      apply andb_prop in Hq. destruct Hq as [_ Hq].
      apply negb_true_iff, String.eqb_neq in Hq.
      now specialize (Hunshared r' Hin Hk). }
  split.
  - intros Hworks.
    assert (Hgone : ~ In key (fold_left (unlink unlinkFails) assetsToBeDeleted
                                        files))
      by now apply unlink_all_removes.
    now destruct (forallb _ assetsToBeDeleted).
  - intros Hrejects.
    replace (forallb (fun _ => deleteSearchable None) assetsToBeDeleted)
      with false; [reflexivity|].
    symmetry. apply not_true_is_false. intros H.
    rewrite forallb_forall in H. specialize (H key Hdel). congruence.
Qed.

End DeleteMore.

(** * Removing a lingering record *)

Lemma deleteOne_first {Doc : Type} (query : Doc -> bool) (c : list Doc)
      (x : Doc) :
  In x c -> query x = true ->
  exists before r after,
    c = before ++ r :: after /\ query r = true /\
    (forall b, In b before -> query b = false) /\
    deleteOne query c = before ++ after.
Proof.
  induction c as [|y t IH]; intros Hin Hq; [destruct Hin|]. simpl.
  destruct (query y) eqn:E.
  - exists [], y, t. repeat split; trivial. intros b [].
  - destruct Hin as [-> | Hin]; [congruence|].
    destruct (IH Hin Hq) as (before & r & after & -> & Hr & Hb & ->).
    exists (y :: before), r, after. repeat split; trivial.
    intros b [<- | Hb']; [assumption | now apply Hb].
Qed.

Lemma deleteOne_none {Doc : Type} (query : Doc -> bool) (c : list Doc) :
  (forall x, In x c -> query x = false) -> deleteOne query c = c.
Proof.
  induction c as [|y t IH]; intros H; simpl; [reflexivity|].
  rewrite (H y (or_introl eq_refl)). f_equal. apply IH.
  intros x Hx. apply H. now right.
Qed.

(** X13.  [deleteAssetFromDatabase] changes nothing when the name is
    empty or the blob still exists, or when no record has that storage key;
    otherwise it removes the first record with that storage key and no
    other, so further records sharing the key stay. *)
Theorem deleteAssetFromDatabase_removes_one (assets : list Asset)
        (files : Fs) (name : string) :
  (name = "" \/ In name files ->
   deleteAssetFromDatabase assets files name = assets) /\
  (name <> "" -> ~ In name files ->
   (forall x, In x assets -> fileName x <> name) ->
   deleteAssetFromDatabase assets files name = assets) /\
  (name <> "" -> ~ In name files ->
   forall x, In x assets -> fileName x = name ->
   exists before r after,
     assets = before ++ r :: after /\ fileName r = name /\
     (forall b, In b before -> fileName b <> name) /\
     deleteAssetFromDatabase assets files name = before ++ after).
Proof.
  unfold deleteAssetFromDatabase, existsSync. split; [|split].
  - intros [-> | Hin]; [reflexivity|].
    apply includes_In in Hin. rewrite Hin. now rewrite orb_true_r.
  - intros Hne Hnot Hnone.
    apply String.eqb_neq in Hne. rewrite Hne.
    destruct (includes files name) eqn:E;
      [apply includes_In in E; contradiction|]. simpl.
    apply deleteOne_none. intros x Hx. apply String.eqb_neq. now apply Hnone.
  - intros Hne Hnot x Hx Hname.
    apply String.eqb_neq in Hne. rewrite Hne.
    destruct (includes files name) eqn:E;
      [apply includes_In in E; contradiction|]. simpl.
    destruct (deleteOne_first (fun a => (fileName a =? name)%string) assets x Hx)
      as (before & r & after & Es & Hr & Hb & Hd).
    { now apply String.eqb_eq. }
    exists before, r, after. repeat split; trivial.
    + now apply String.eqb_eq.
    + intros b Hin. apply String.eqb_neq. now apply Hb.
Qed.

(** * Admission, then listing and retrieval *)

Section Admission.

Variable UPLOAD_DEST : string.
Variable sendNoOp : string -> string -> Versions -> Versions.
Variable makeSearchable : option ObjectId -> string -> bool.
Variable insertError : Asset -> option JS.Error.

(** What an admission that called back with [summary] stored. *)
Lemma addAsset_stored (w : World) (wid : string) (asset : Multer.File)
      (searchable : bool) (source : string) (w' : World)
      (summary : AssetSummary.t) :
  addAsset UPLOAD_DEST sendNoOp makeSearchable insertError
           w wid asset searchable source
  = (w', JS.CbOk summary) ->
  exists r,
    docs (db w') = docs (db w) ++ [r] /\ fs w' = fs w /\
    webstrateId r = wid /\ deletedAt r = None /\
    v r = AssetSummary.v summary /\
    originalFileName r = AssetSummary.fileName summary /\
    fileSize r = AssetSummary.fileSize summary /\
    mimeType r = AssetSummary.mimeType summary /\
    fileName r = AssetSummary.identifier summary /\
    fileHash r = AssetSummary.fileHash summary.
Proof.
  unfold addAsset. destruct (insertError _); [discriminate|].
  cbn [insertOne _id].
  match goal with |- context [if ?c then _ else _] => destruct c end;
    [discriminate|].
  intros [= <- <-]. eexists. simpl. repeat split.
Qed.

(** X14.  After an admission that called back with a summary,
    [getAssets] of the document lists what it listed before followed by one
    entry with the summary's version, logical name, size, type, hash and
    storage key, and no [deletedAt]. *)
Theorem addAsset_then_getAssets (w : World) (wid : string)
        (asset : Multer.File) (searchable : bool) (source : string)
        (w' : World) (summary : AssetSummary.t) :
  addAsset UPLOAD_DEST sendNoOp makeSearchable insertError
           w wid asset searchable source
  = (w', JS.CbOk summary) ->
  getAssets (docs (db w')) wid
  = getAssets (docs (db w)) wid
    ++ [Listed.mk (AssetSummary.v summary) (AssetSummary.fileName summary)
                  (AssetSummary.fileSize summary)
                  (AssetSummary.mimeType summary)
                  (AssetSummary.fileHash summary) None
                  (AssetSummary.identifier summary)].
Proof.
  intros H. apply addAsset_stored in H.
  destruct H as (r & -> & _ & Hw & Hd & Hv & Hn & Hs & Hm & Hk & Hh).
  unfold getAssets, Mongo.find. rewrite filter_app, !map_app. f_equal.
  simpl. rewrite Hw, String.eqb_refl. simpl.
  unfold listed, projected. simpl. now rewrite Hd, Hv, Hn, Hs, Hm, Hk, Hh.
Qed.

(** X15.  After an admission that called back with a summary, if
    every earlier record of the document under that logical name has a
    version below the summary's, [getAsset] without a version for that name
    resolves to a record with the summary's version, storage key, size and
    hash. *)
Theorem addAsset_then_getAsset (w : World) (wid : string)
        (asset : Multer.File) (searchable : bool) (source : string)
        (w' : World) (summary : AssetSummary.t) :
  addAsset UPLOAD_DEST sendNoOp makeSearchable insertError
           w wid asset searchable source
  = (w', JS.CbOk summary) ->
  (forall y, In y (docs (db w)) -> webstrateId y = wid ->
             originalFileName y = AssetSummary.fileName summary ->
             v y < AssetSummary.v summary) ->
  exists r,
    getAsset (docs (db w')) wid (AssetSummary.fileName summary) None
    = JS.Resolved (Some r) /\
    v r = AssetSummary.v summary /\
    fileName r = AssetSummary.identifier summary /\
    fileSize r = AssetSummary.fileSize summary /\
    fileHash r = AssetSummary.fileHash summary.
Proof.
  intros H Holder. apply addAsset_stored in H.
  destruct H as (r & Hdocs & _ & Hw & Hd & Hv & Hn & Hs & Hm & Hk & Hh).
  exists r. split; [|tauto]. rewrite getAsset_served.
  set (query := getAssetQuery wid (AssetSummary.fileName summary) None).
  assert (Hq : query r = true).
  { unfold query, getAssetQuery, byName. simpl.
    now rewrite Hw, Hn, !String.eqb_refl. }
  assert (Hsel : Mongo.findOneSorted v query (docs (db w')) = Some r).
  { apply findOneSorted_firstMax. rewrite Hdocs, filter_app. simpl.
    rewrite Hq. exists (filter query (docs (db w))), [].
    split; [reflexivity|]. split.
    - intros b Hb. apply filter_In in Hb. destruct Hb as [Hb Hqb].
      apply getAssetQuery_sound in Hqb. rewrite Hv. apply Holder; tauto.
    - intros b []. }
  rewrite Hsel. unfold served. now rewrite Hd.
Qed.

(** Every admission appends at most one record and touches no blob. *)
Lemma addAsset_appends (w : World) (wid : string) (asset : Multer.File)
      (searchable : bool) (source : string) :
  fs (fst (addAsset UPLOAD_DEST sendNoOp makeSearchable insertError
                    w wid asset searchable source)) = fs w /\
  exists inserted,
    docs (db (fst (addAsset UPLOAD_DEST sendNoOp makeSearchable insertError
                            w wid asset searchable source)))
    = docs (db w) ++ inserted /\
    List.length inserted
    = (if isCbErr (snd (addAsset UPLOAD_DEST sendNoOp makeSearchable
                                 insertError w wid asset searchable source))
       then 0 else 1)%nat.
Proof.
  unfold addAsset. destruct (insertError _).
  - simpl. split; [reflexivity|]. exists []. now rewrite app_nil_r.
  - cbn [insertOne _id].
    match goal with |- context [if ?c then _ else _] => destruct c end;
      simpl; (split; [reflexivity|]); eexists; split; reflexivity.
Qed.

Lemma addEach_appends (assets : list Multer.File) :
  forall w wid searchables source,
  fs (fst (addEach UPLOAD_DEST sendNoOp makeSearchable insertError
                   w wid assets searchables source)) = fs w /\
  exists inserted,
    docs (db (fst (addEach UPLOAD_DEST sendNoOp makeSearchable insertError
                           w wid assets searchables source)))
    = docs (db w) ++ inserted /\
    List.length inserted
    = List.length
        (filter (fun p => negb (isCbErr p))
                (snd (addEach UPLOAD_DEST sendNoOp makeSearchable insertError
                              w wid assets searchables source))).
Proof.
  induction assets as [|a rest IH]; intros w wid searchables source; simpl.
  - split; [reflexivity|]. exists []. now rewrite app_nil_r.
  - pose proof (addAsset_appends w wid a
                  (includes searchables (Multer.originalname a)) source)
      as (Hfs1 & ins1 & Hdocs1 & Hlen1).
    destruct (addAsset _ _ _ _ w wid a _ source) as [w1 r]. simpl in *.
    specialize (IH w1 wid searchables source).
    destruct IH as (Hfs2 & ins2 & Hdocs2 & Hlen2).
    destruct (addEach _ _ _ _ w1 wid rest searchables source) as [w2 rs].
    simpl in *. split; [congruence|].
    exists (ins1 ++ ins2). rewrite Hdocs2, Hdocs1, <- app_assoc.
    split; [reflexivity|]. rewrite length_app, Hlen1, Hlen2.
    destruct (isCbErr r); reflexivity.
Qed.

Lemma promiseAll_rejects {A : Type} (promises : list (JS.Callback A))
      (e : JS.Error) :
  In (JS.CbErr e) promises -> exists e', JS.promiseAll promises = JS.CbErr e'.
Proof.
  induction promises as [|p rest IH]; intros Hin; [destruct Hin|]. simpl.
  destruct Hin as [-> | Hin].
  - now exists e.
  - destruct (IH Hin) as [e' ->]. destruct p; eauto.
Qed.

Lemma addAssets_fs (w : World) (wid : string) (assets : list Multer.File)
      (searchables : list string) (source : string) :
  fs (fst (addAssets UPLOAD_DEST sendNoOp makeSearchable insertError
                     w wid assets searchables source)) = fs w.
Proof.
  pose proof (addEach_appends assets w wid searchables source) as (Hfs & _).
  unfold addAssets.
  now destruct (addEach _ _ _ _ w wid assets searchables source).
Qed.

(** X16.  [addAssets] never removes or changes a record or a blob:
    the store afterwards is the store before followed by one record per
    admission whose insert was not refused, also when another admission of
    the same call failed and the callback received its error. *)
Theorem addAssets_keeps_accepted_records (w : World) (wid : string)
        (assets : list Multer.File) (searchables : list string)
        (source : string) :
  fs (fst (addAssets UPLOAD_DEST sendNoOp makeSearchable insertError
                     w wid assets searchables source)) = fs w /\
  (exists inserted,
     docs (db (fst (addAssets UPLOAD_DEST sendNoOp makeSearchable insertError
                              w wid assets searchables source)))
     = docs (db w) ++ inserted /\
     List.length inserted
     = List.length
         (filter (fun p => negb (isCbErr p))
                 (snd (addEach UPLOAD_DEST sendNoOp makeSearchable insertError
                               w wid assets searchables source)))) /\
  (forall e,
     In (JS.CbErr e)
        (snd (addEach UPLOAD_DEST sendNoOp makeSearchable insertError
                      w wid assets searchables source)) ->
     exists e',
       snd (addAssets UPLOAD_DEST sendNoOp makeSearchable insertError
                      w wid assets searchables source)
       = JS.CbErr e').
Proof.
  pose proof (addEach_appends assets w wid searchables source) as (Hfs & Hins).
  unfold addAssets.
  destruct (addEach _ _ _ _ w wid assets searchables source) as [w' promises].
  simpl in *. split; [assumption|]. split; [assumption|].
  intros e He. destruct (promiseAll_rejects promises e He) as [e' ->].
  now exists e'.
Qed.

End Admission.

(** * The duplicate pass and the blobs *)

Section DuplicatePass.

Variable md5File : list Byte.byte -> string.
Variable UPLOAD_DEST : string.
Variable sendNoOp : string -> string -> Versions -> Versions.
Variable makeSearchable : option ObjectId -> string -> bool.
Variable unlinkFails : string -> bool.
Variable insertError : Asset -> option JS.Error.

Lemma deleteAssetFromFileSystem_keeps_other (files : Fs) (name key : string) :
  In key files -> key <> name ->
  In key (deleteAssetFromFileSystem unlinkFails files name).
Proof.
  intros Hin Hne. unfold deleteAssetFromFileSystem.
  destruct ((name =? "")%string || negb (existsSync files name)); trivial.
  now apply unlink_keeps_other.
Qed.

Lemma reuseDuplicates_keeps_other (assets : list Asset)
      (uploaded : list Multer.File) : forall files key,
  In key files ->
  (forall file, In file uploaded -> Multer.filename file <> key) ->
  In key (fst (reuseDuplicates unlinkFails assets files uploaded)).
Proof.
  induction uploaded as [|file rest IH]; intros files key Hin Hnot; simpl.
  - assumption.
  - destruct (findDuplicateAsset assets file) as [duplicate|].
    + specialize (IH (deleteAssetFromFileSystem unlinkFails files
                                                (Multer.filename file)) key).
      destruct (reuseDuplicates unlinkFails assets _ rest) as [files' rest'].
      simpl in *. apply IH.
      * apply deleteAssetFromFileSystem_keeps_other; trivial.
        intros ->. now apply (Hnot file (or_introl eq_refl)).
      * intros f Hf. apply Hnot. now right.
    + specialize (IH files key).
      destruct (reuseDuplicates unlinkFails assets files rest)
        as [files' rest'].
      simpl in *. apply IH; trivial. intros f Hf. apply Hnot. now right.
Qed.

(** X17.  Whatever the upload handler answers, a blob that is not
    one of the request's own uploaded files is still present afterwards: the
    cleanup of duplicates unlinks uploaded files only, never the blob a
    duplicate record refers to. *)
Theorem assetUploadHandler_keeps_other_blobs (w : World)
        (err : option Multer.UploadError) (req : Request) (key : string) :
  In key (fs w) ->
  (forall files file, req_files req = Some files -> In file files ->
                      Multer.filename file <> key) ->
  In key (fs (fst (assetUploadHandler md5File UPLOAD_DEST sendNoOp
                     makeSearchable unlinkFails insertError w err req))).
Proof.
  intros Hin Hnot. unfold assetUploadHandler.
  destruct err as [[|e]|]; trivial.
  destruct (req_files req) as [files|] eqn:Ef; trivial.
  set (hashed := map _ files).
  pose proof (reuseDuplicates_keeps_other (docs (db w)) hashed (fs w) key Hin)
    as Hkept.
  destruct (reuseDuplicates unlinkFails (docs (db w)) (fs w) hashed)
    as [files' reused]. simpl in Hkept.
  match goal with
  | |- context [addAssets ?a ?b ?c ?d ?w0 ?wid ?fl ?se ?so] =>
      pose proof (addAssets_fs a b c d w0 wid fl se so) as Hfs;
      destruct (addAssets a b c d w0 wid fl se so) as [w' result]
  end.
  simpl in *. rewrite Hfs. apply Hkept.
  intros file Hfile. unfold hashed in Hfile. apply in_map_iff in Hfile.
  destruct Hfile as (f0 & <- & Hf0). simpl. now apply (Hnot files f0).
Qed.

End DuplicatePass.

(** * Frames of copy and restore *)

Lemma In_withIds (g : Asset -> Asset) (l : list Asset) : forall n x,
  In x (withIds n (map g l)) -> exists s i, In s l /\ x = set_id (Some i) (g s).
Proof.
  induction l as [|a r IH]; intros n x H; simpl in H; [destruct H|].
  destruct H as [<- | H].
  - exists a, n. split; [now left | reflexivity].
  - destruct (IH _ _ H) as (s & i & Hs & ->). exists s, i. split; [now right|].
    reflexivity.
Qed.

Lemma filter_app_none {A : Type} (p : A -> bool) (l extra : list A) :
  (forall x, In x extra -> p x = false) -> filter p (l ++ extra) = filter p l.
Proof.
  intros H. rewrite filter_app, (filter_none p extra H). apply app_nil_r.
Qed.

(** X18.  [copyAssets] changes no answer of [getAsset] for a
    document other than the target, the source included. *)
Theorem copyAssets_leaves_other_documents (d : Db)
        (fromWebstrateId toWebstrateId other : string) (version : Z)
        (name : string) (queried : option Z) :
  other <> toWebstrateId ->
  getAsset (docs (fst (copyAssets d fromWebstrateId toWebstrateId version)))
           other name queried
  = getAsset (docs d) other name queried.
Proof.
  intros Hother. rewrite !getAsset_served, copyAssets_docs.
  unfold Mongo.findOneSorted, Mongo.find. rewrite filter_app_none; trivial.
  intros x Hx. apply In_withIds in Hx. destruct Hx as (s & i & _ & ->).
  unfold getAssetQuery, byName. simpl.
  apply not_eq_sym, String.eqb_neq in Hother. now rewrite Hother.
Qed.

Section RestoreHistory.

Variable getVersionFromTag : string -> option string -> JS.Callback (option Z).

(** X19.  A call of [restoreAssets] with a version other than 0 comes
    back, its callback called without error or with the driver's error for
    an empty batch, and [getAsset] at any version other than 0 below the
    new version answers afterwards as it did before, for every document and
    name. *)
Theorem restoreAssets_keeps_history (fuel : nat) (d : Db) (wid : string)
        (version : Z) (tag : option string) (newVersion : Z)
        (other name : string) (V : Z) :
  version <> 0 -> V <> 0 -> V < newVersion ->
  exists d' answer,
    restoreAssets getVersionFromTag (S fuel) d wid (Some version) tag newVersion
    = Some (d', answer) /\
    (answer = JS.CbOk tt \/ answer = JS.CbErr noOperations) /\
    getAsset (docs d') other name (Some V)
    = getAsset (docs d) other name (Some V).
Proof.
  intros Hv HV Hlt.
  destruct (restoreAssets_docs getVersionFromTag fuel d wid version tag
                               newVersion Hv)
    as (d' & answer & Hres & Hdocs & _ & Hnone & Hsome & Herr).
  exists d', answer. split; [assumption|]. split.
  { destruct (resolvedAt (docs d) wid version) as [|r rest] eqn:Er.
    - destruct (Mongo.find (byVersion wid (Some version)) (docs d))
        as [|x found] eqn:Ef.
      + left. now apply Hnone.
      + right. apply Herr; [discriminate | reflexivity].
    - left. apply Hsome. discriminate. }
  rewrite !getAsset_served, Hdocs.
  unfold Mongo.findOneSorted, Mongo.find. rewrite filter_app_none; trivial.
  intros x Hx. apply In_withIds in Hx. destruct Hx as (s & i & _ & ->).
  unfold getAssetQuery. simpl. unfold JS.truthy.
  destruct (Z.eqb_spec V 0); [contradiction|]. simpl.
  destruct (Z.leb_spec newVersion V); [lia|]. now rewrite andb_false_r.
Qed.

End RestoreHistory.

(** * The records of an upload request *)

Section UploadRecords.

Variable md5File : list Byte.byte -> string.
Variable UPLOAD_DEST : string.
Variable sendNoOp : string -> string -> Versions -> Versions.
Variable makeSearchable : option ObjectId -> string -> bool.
Variable unlinkFails : string -> bool.
Variable insertError : Asset -> option JS.Error.

Hypothesis insert_accepts : forall doc, insertError doc = None.

Lemma reuseDuplicates_files (assets : list Asset)
      (uploaded : list Multer.File) : forall files,
  Forall2 (fun file reused =>
             Multer.filename reused = storageKey assets file /\
             Multer.originalname reused = Multer.originalname file /\
             Multer.size reused = Multer.size file /\
             Multer.fileHash reused = Multer.fileHash file)
          uploaded
          (snd (reuseDuplicates unlinkFails assets files uploaded)).
Proof.
  induction uploaded as [|file rest IH]; intros files; simpl; [constructor|].
  destruct (findDuplicateAsset assets file) as [duplicate|] eqn:E.
  - specialize (IH (deleteAssetFromFileSystem unlinkFails files
                                              (Multer.filename file))).
    destruct (reuseDuplicates unlinkFails assets _ rest) as [files' rest'].
    simpl in *. constructor; [|assumption].
    unfold storageKey. rewrite E. now repeat split.
  - specialize (IH files).
    destruct (reuseDuplicates unlinkFails assets files rest) as [files' rest'].
    simpl in *. constructor; [|assumption].
    unfold storageKey. rewrite E. now repeat split.
Qed.

Lemma addEach_records (wid : string) (searchables : list string)
      (source : string) (assets : list Multer.File) : forall w,
  exists records,
    docs (db (fst (addEach UPLOAD_DEST sendNoOp makeSearchable insertError
                           w wid assets searchables source)))
    = docs (db w) ++ records /\
    Forall2 (fun asset r =>
               webstrateId r = wid /\
               fileName r = Multer.filename asset /\
               originalFileName r = Multer.originalname asset /\
               fileSize r = Multer.size asset /\
               fileHash r = Multer.fileHash asset /\
               deletedAt r = None)
            assets records.
Proof.
  induction assets as [|a rest IH]; intros w; simpl.
  - exists []. rewrite app_nil_r. split; [reflexivity | constructor].
  - unfold addAsset at 1. rewrite insert_accepts. cbn [insertOne _id].
    match goal with |- context [if ?c then _ else _] => destruct c end;
      match goal with
      | |- context [addEach _ _ _ _ ?w1 wid rest searchables source] =>
          destruct (IH w1) as (records & Hdocs & Hall);
          destruct (addEach UPLOAD_DEST sendNoOp makeSearchable insertError
                            w1 wid rest searchables source) as [w2 rs]
      end;
      simpl in *; eexists (_ :: records); rewrite Hdocs, <- app_assoc;
      (split; [reflexivity|]); constructor; trivial; simpl; tauto.
Qed.

(** X20.  The record store accepting the writes, a request with files
    adds one record per file, in order, each with the file's name, size and
    digest and filed under the storage key settled against the store as it
    was before the request: the [fileName] of the first record with the
    same size and hash, or the file's own name when there was none. *)
Theorem assetUploadHandler_files_under_storage_keys (w : World)
        (req : Request) (files : list Multer.File) :
  req_files req = Some files ->
  exists records,
    docs (db (fst (assetUploadHandler md5File UPLOAD_DEST sendNoOp
                     makeSearchable unlinkFails insertError w None req)))
    = docs (db w) ++ records /\
    Forall2 (fun file r =>
               webstrateId r = req_webstrateId req /\
               originalFileName r = Multer.originalname file /\
               fileSize r = Multer.size file /\
               fileHash r = Some (md5File (Multer.content file)) /\
               fileName r
               = storageKey (docs (db w))
                   (Multer.set_fileHash
                      (Some (md5File (Multer.content file))) file))
            files records.
Proof.
  intros Hfiles. unfold assetUploadHandler. rewrite Hfiles.
  set (hashed := map (fun file => Multer.set_fileHash
                                    (Some (md5File (Multer.content file)))
                                    file) files).
  pose proof (reuseDuplicates_files (docs (db w)) hashed (fs w)) as Hreused.
  destruct (reuseDuplicates unlinkFails (docs (db w)) (fs w) hashed)
    as [files' reused]. simpl in Hreused.
  unfold addAssets.
  match goal with
  | |- context [addEach _ _ _ _ ?w0 ?wid reused ?se ?so] =>
      destruct (addEach_records wid se so reused w0)
        as (records & Hdocs & Hrecords);
      destruct (addEach UPLOAD_DEST sendNoOp makeSearchable insertError
                        w0 wid reused se so) as [w' promises]
  end.
  simpl in *. exists records. split; [assumption|].
  clear -Hreused Hrecords. unfold hashed in Hreused. clear hashed.
  revert reused records Hreused Hrecords.
  induction files as [|file rest IH]; intros reused records Hreused Hrecords.
  - inversion Hreused; subst. inversion Hrecords; subst. constructor.
  - simpl in Hreused. inversion Hreused as [|? f' ? reused' Hf Hrest]; subst.
    inversion Hrecords as [|? r ? records' Hr Hrest']; subst.
    constructor; [|now apply IH with reused'].
    simpl in Hf. destruct Hf as (Hk & Hn & Hs & Hh).
    destruct Hr as (Hw & Hrk & Hrn & Hrs & Hrh & _).
    repeat split; congruence.
Qed.

End UploadRecords.

(** * Witnesses *)

(** Witness for X4. *)
Lemma getCurrentAssets_agrees_with_getAsset_witness :
  In (projected Sample.a_v3) (getCurrentAssets Sample.storeD "D") /\
  Projected.originalFileName (projected Sample.a_v3) = "a.png"
  <->
  exists r, projected r = projected Sample.a_v3 /\
            getAsset Sample.storeD "D" "a.png" None = JS.Resolved (Some r).
Proof.
  apply (getCurrentAssets_agrees_with_getAsset Sample.storeD "D" "a.png"
           (projected Sample.a_v3)).
  - reflexivity.
  - simpl. repeat constructor; simpl; intuition discriminate.
Defined.


(** Witness for X7. *)
Lemma markAssetAsDeleted_leaves_other_assets_witness :
  getAsset (fst (markAssetAsDeleted (fun _ => 5) Sample.storeD "D" "a.png"))
           "D" "b.csv" (Some 1)
  = getAsset Sample.storeD "D" "b.csv" (Some 1).
Proof.
  apply (markAssetAsDeleted_leaves_other_assets (fun _ => 5) Sample.storeD
           "D" "a.png" "D" "b.csv" (Some 1)).
  right. discriminate.
Defined.

(** Witness for X10. *)
Lemma copyAssets_then_getAsset_witness :
  exists clone,
    In clone (docs (fst (copyAssets Sample.dbD "D" "Q" 5))) /\
    copiedFrom "Q" Sample.b_csv clone /\
    getAsset (docs (fst (copyAssets Sample.dbD "D" "Q" 5))) "Q"
             (originalFileName Sample.b_csv) (Some 1)
    = served (Some 1) clone /\
    (forall V dl, Some 1 = Some V -> V <> 0 ->
                  deletedAt Sample.b_csv = Some dl -> V < dl ->
                  served (Some 1) clone = JS.Resolved (Some clone)) /\
    (forall dl, JS.truthy_opt (Some 1) = false ->
                deletedAt Sample.b_csv = Some dl -> dl <> 0 ->
                served (Some 1) clone = JS.Resolved None).
Proof.
  apply (copyAssets_then_getAsset Sample.dbD "D" "Q" 5 Sample.b_csv (Some 1)).
  - intros x [<- | [<- | [<- | []]]]; discriminate.
  - right. left. reflexivity.
  - lia.
Defined.

(** Witness for X18. *)
Lemma copyAssets_leaves_other_documents_witness :
  getAsset (docs (fst (copyAssets Sample.dbD "D" "Q" 5))) "D" "a.png" None
  = getAsset (docs Sample.dbD) "D" "a.png" None.
Proof.
  apply (copyAssets_leaves_other_documents Sample.dbD "D" "Q" "D" 5 "a.png"
           None).
  discriminate.
Defined.

(** Witness for X8. *)
Lemma restoreAssets_then_getAsset_witness :
  exists d' clone,
    restoreAssets Sample.getVersionFromTag 1 Sample.dbD "D" (Some 1) None 7
    = Some (d', JS.CbOk tt) /\
    In clone (docs d') /\ restoredFrom 7 Sample.a_v1 clone /\
    getAsset (docs d') "D" (originalFileName Sample.a_v1) None
    = if JS.truthy_opt (deletedAt Sample.a_v1) then JS.Resolved None
      else JS.Resolved (Some clone).
Proof.
  apply (restoreAssets_then_getAsset Sample.getVersionFromTag 0 Sample.dbD
           "D" 1 None 7 Sample.a_v1).
  - lia.
  - intros x [<- | [<- | [<- | []]]]; simpl; intros; lia.
  - left. reflexivity.
Defined.

(** Witness for X19. *)
Lemma restoreAssets_keeps_history_witness :
  exists d' answer,
    restoreAssets Sample.getVersionFromTag 1 Sample.dbD "D" (Some 1) None 7
    = Some (d', answer) /\
    (answer = JS.CbOk tt \/ answer = JS.CbErr noOperations) /\
    getAsset (docs d') "D" "a.png" (Some 3)
    = getAsset (docs Sample.dbD) "D" "a.png" (Some 3).
Proof.
  apply (restoreAssets_keeps_history Sample.getVersionFromTag 0 Sample.dbD
           "D" 1 None 7 "D" "a.png" 3); lia.
Defined.

(** Witness for X9. *)
Lemma restoreAssets_by_tag_witness :
  restoreAssets SampleMore.tagWithoutVersion 10 Sample.dbD "D" None
                (Some "release") 7
  = None.
Proof.
  exact (restoreAssets_by_tag SampleMore.tagWithoutVersion Sample.dbD "D" None
           (Some "release") 7 eq_refl 10%nat).
Defined.

(** Witness for X11. *)
Lemma deleteAssets_leaves_other_documents_witness :
  (forall name version,
     getAsset (docs (fst (fst (deleteAssets Sample.deleteSearchable
                                            Sample.unlinkWorks Sample.dbDE
                                            Sample.blobs "D"))))
              "E" name version
     = getAsset (docs Sample.dbDE) "E" name version) /\
  getAssets (docs (fst (fst (deleteAssets Sample.deleteSearchable
                                          Sample.unlinkWorks Sample.dbDE
                                          Sample.blobs "D"))))
            "E"
  = getAssets (docs Sample.dbDE) "E" /\
  getCurrentAssets (docs (fst (fst (deleteAssets Sample.deleteSearchable
                                                 Sample.unlinkWorks
                                                 Sample.dbDE Sample.blobs
                                                 "D"))))
                   "E"
  = getCurrentAssets (docs Sample.dbDE) "E".
Proof.
  apply (deleteAssets_leaves_other_documents Sample.deleteSearchable
           Sample.unlinkWorks Sample.dbDE Sample.blobs "D" "E").
  discriminate.
Defined.

(** Witness for X12. *)
Lemma deleteAssets_unlinks_unshared_blobs_witness :
  (Sample.unlinkWorks "f2" = false ->
   ~ In "f2" (snd (fst (deleteAssets (fun _ => false) Sample.unlinkWorks
                                     Sample.dbDE Sample.blobs "D")))) /\
  ((fun _ : option ObjectId => false) None = false ->
   deleteAssets (fun _ => false) Sample.unlinkWorks Sample.dbDE Sample.blobs
                "D"
   = (Sample.dbDE,
      snd (fst (deleteAssets (fun _ => false) Sample.unlinkWorks Sample.dbDE
                             Sample.blobs "D")),
      JS.NotCalled)).
Proof.
  apply (deleteAssets_unlinks_unshared_blobs (fun _ => false)
           Sample.unlinkWorks Sample.dbDE Sample.blobs "D" "f2" Sample.a_v3).
  - simpl. tauto.
  - reflexivity.
  - reflexivity.
  - intros r' [<- | [<- | [<- | [<- | []]]]]; simpl; intros H;
      try reflexivity; discriminate H.
Defined.

(** Witness for X14. *)
Lemma addAsset_then_getAssets_witness :
  getAssets
    (docs (db (fst (addAsset "/srv/webstrates/uploads/" Sample.sendNoOp
                             Sample.makeSearchable Sample.insertError
                             Sample.emptyWorld "D" Sample.upload1 false
                             "user"))))
    "D"
  = getAssets (docs (db Sample.emptyWorld)) "D"
    ++ [Listed.mk 1 "one.png" 3 "image/png" None None "k1"].
Proof.
  apply (addAsset_then_getAssets "/srv/webstrates/uploads/" Sample.sendNoOp
           Sample.makeSearchable Sample.insertError Sample.emptyWorld "D"
           Sample.upload1 false "user" _ SampleMore.summary1).
  reflexivity.
Defined.

(** Witness for X15. *)
Lemma addAsset_then_getAsset_witness :
  exists r,
    getAsset
      (docs (db (fst (addAsset "/srv/webstrates/uploads/" Sample.sendNoOp
                               Sample.makeSearchable Sample.insertError
                               Sample.emptyWorld "D" Sample.upload1 false
                               "user"))))
      "D" "one.png" None
    = JS.Resolved (Some r) /\
    v r = 1 /\ fileName r = "k1" /\ fileSize r = 3 /\ fileHash r = None.
Proof.
  apply (addAsset_then_getAsset "/srv/webstrates/uploads/" Sample.sendNoOp
           Sample.makeSearchable Sample.insertError Sample.emptyWorld "D"
           Sample.upload1 false "user" _ SampleMore.summary1).
  - reflexivity.
  - intros y [].
Defined.

(** Witness for X17. *)
Lemma assetUploadHandler_keeps_other_blobs_witness :
  In "f1" (fs (fst (Sample.uploadHandler SampleMore.worldD None
                                         (Sample.request [Sample.upload1])))).
Proof.
  apply (assetUploadHandler_keeps_other_blobs Sample.md5File
           "/srv/webstrates/uploads/" Sample.sendNoOp Sample.makeSearchable
           Sample.unlinkWorks Sample.insertError SampleMore.worldD None
           (Sample.request [Sample.upload1]) "f1").
  - simpl. tauto.
  - intros files file [= <-] [<- | []]. discriminate.
Defined.

(** Witness for X20. *)
Lemma assetUploadHandler_files_under_storage_keys_witness :
  exists records,
    docs (db (fst (Sample.uploadHandler
                     SampleMore.worldD None
                     (Sample.request [Sample.upload1; Sample.upload2]))))
    = docs (db SampleMore.worldD) ++ records /\
    Forall2 (fun file r =>
               webstrateId r = "D" /\
               originalFileName r = Multer.originalname file /\
               fileSize r = Multer.size file /\
               fileHash r = Some (Sample.md5File (Multer.content file)) /\
               fileName r
               = storageKey (docs (db SampleMore.worldD))
                   (Multer.set_fileHash
                      (Some (Sample.md5File (Multer.content file))) file))
            [Sample.upload1; Sample.upload2] records.
Proof.
  apply (assetUploadHandler_files_under_storage_keys Sample.md5File
           "/srv/webstrates/uploads/" Sample.sendNoOp Sample.makeSearchable
           Sample.unlinkWorks Sample.insertError (fun _ => eq_refl)
           SampleMore.worldD
           (Sample.request [Sample.upload1; Sample.upload2])
           [Sample.upload1; Sample.upload2] eq_refl).
Defined.

(** Witness for X5. *)
Lemma getAsset_answers_from_the_store_witness :
  (In Sample.a_v1 Sample.storeD /\ webstrateId Sample.a_v1 = "D" /\
   originalFileName Sample.a_v1 = "a.png" /\
   (Some 2 <> Some 0 -> upTo (Some 2) Sample.a_v1) /\
   match deletedAt Sample.a_v1 with
   | None => True
   | Some d => d = 0 \/ exists V, Some 2 = Some V /\ V <> 0 /\ V < d
   end) /\
  (exists r d, In r Sample.storeD /\ webstrateId r = "D" /\
               originalFileName r = "b.csv" /\
               deletedAt r = Some d /\ d <> 0).
Proof.
  split.
  - apply (proj1 (getAsset_answers_from_the_store Sample.storeD "D" "a.png"
                    (Some 2))).
    reflexivity.
  - apply (proj2 (getAsset_answers_from_the_store Sample.storeD "D" "b.csv"
                    None)).
    reflexivity.
Defined.

(** Witness for X13. *)
Lemma deleteAssetFromDatabase_removes_one_witness :
  exists before r after,
    docs Sample.dbDE = before ++ r :: after /\ fileName r = "f1" /\
    (forall b, In b before -> fileName b <> "f1") /\
    deleteAssetFromDatabase (docs Sample.dbDE) ["f2"; "f3"] "f1"
    = before ++ after.
Proof.
  apply (proj2 (proj2 (deleteAssetFromDatabase_removes_one
                         (docs Sample.dbDE) ["f2"; "f3"] "f1"))
           ltac:(discriminate)
           ltac:(simpl; intros [H|[H|[]]]; discriminate)
           Sample.e_v1).
  - simpl. tauto.
  - reflexivity.
Defined.

(** Witness for X16. *)
Lemma addAssets_keeps_accepted_records_witness :
  exists e',
    snd (addAssets "/srv/webstrates/uploads/" Sample.sendNoOp
                   Sample.makeSearchable SampleMore.refusesTwo Sample.emptyWorld "D"
                   [Sample.upload1; Sample.upload2] [] "user")
    = JS.CbErr e'.
Proof.
  apply (proj2 (proj2 (addAssets_keeps_accepted_records
                         "/srv/webstrates/uploads/" Sample.sendNoOp
                         Sample.makeSearchable SampleMore.refusesTwo
                         Sample.emptyWorld "D"
                         [Sample.upload1; Sample.upload2] [] "user"))
           (JS.Err "write refused")).
  simpl. right. left. reflexivity.
Defined.

(** Witness for X21: document J holds a record named constructor only. *)
Lemma restoreAssets_empty_batch_witness :
  restoreAssets Sample.getVersionFromTag 1 SampleMore.dbKJ "J" (Some 1) None 7
  = Some (SampleMore.dbKJ, JS.CbErr noOperations) /\
  copyAssets SampleMore.dbKJ "J" "Q" 1 = (SampleMore.dbKJ, JS.CbOk tt).
Proof.
  apply (restoreAssets_empty_batch Sample.getVersionFromTag 0 SampleMore.dbKJ
           "J" 1 None 7 "Q" SampleMore.j_ctor).
  - lia.
  - simpl. tauto.
  - reflexivity.
  - simpl. lia.
  - intros a [<- | [<- | [<- | []]]]; simpl; intros; try reflexivity;
      discriminate.
Defined.
